(** * jsonframer: JSON text to data frames

    A shallow embedding of [lib/go/jsonframer/jsonframer.go] and of the
    error values declared next to it, with the properties of the pipeline
    (validation, root resolution, column projection, frame building,
    multi-frame classification and long-to-wide reshaping) stated and
    proved over it.

    Layout:
    - Go values: strings as byte strings, [error], panics, [interface{}]
      values, maps;
    - the packages the framer imports, one module each ([strings],
      [gjson], [json], [jsonata], [data], [gframer]); what a package
      computes is a class of its module, so that the properties of the
      framer hold for every implementation of it;
    - the framer itself, function by function, in [Module jsonframer];
    - [Module Reference]: executable instances of the classes, used to
      run the framer on concrete texts;
    - [Module props]: the vocabulary of the properties;
    - the properties of the pipeline for every implementation of the
      packages, then claim by claim, then on concrete texts. *)

From Stdlib Require Import String Ascii List Bool Arith ZArith Lia.
From Stdlib Require Import Sorting.Sorted Sorting.Permutation.
Import ListNotations.
Local Open Scope string_scope.
Local Open Scope list_scope.

(* ================================================================== *)
(** * Go values *)
(* ================================================================== *)

(** A Go [string] is a sequence of bytes: Rocq's [string], whose
    characters are the 256 [ascii] values. *)

Definition byte (n : nat) : ascii := ascii_of_nat n.

Fixpoint bytes (l : list nat) : string :=
  match l with
  | [] => EmptyString
  | n :: l' => String (byte n) (bytes l')
  end.

(** The double quote and the line feed, which a Rocq string literal
    cannot hold as they are. *)
Definition dquote : string := bytes [34].
Definition LF : string := bytes [10].

(** [q s] is [s] with every apostrophe turned into a double quote: JSON
    texts are written [q "{'a':1}"] for [{"a":1}]. *)
Fixpoint q (s : string) : string :=
  match s with
  | EmptyString => EmptyString
  | String c s' =>
      String (if Ascii.eqb c "'"%char then byte 34 else c) (q s')
  end.

Fixpoint rev_string (s acc : string) : string :=
  match s with
  | EmptyString => acc
  | String c s' => rev_string s' (String c acc)
  end.

Fixpoint isPrefix (p s : string) : bool :=
  match p, s with
  | EmptyString, _ => true
  | String a p', String b s' => Ascii.eqb a b && isPrefix p' s'
  | String _ _, EmptyString => false
  end.

Fixpoint dropString (n : nat) (s : string) : string :=
  match n, s with
  | O, _ => s
  | S n', String _ s' => dropString n' s'
  | S _, EmptyString => EmptyString
  end.

Definition takeString (n : nat) (s : string) : string := substring 0 n s.

Definition isEmpty (s : string) : bool :=
  match s with EmptyString => true | String _ _ => false end.

(** ** Errors *)

Module errors.

(** The error values the package makes: [errors.New(text)] and
    [errors.Join(a, b)] of two non-nil errors. Two errors are equal when
    they are built alike, which is what the tests compare
    ([require.Equal]). *)
Inductive error : Type :=
| New (text : string)
| Join (e1 e2 : error).

(** [err.Error()]: a joined error prints its parts on separate lines. *)
Fixpoint Error (e : error) : string :=
  match e with
  | New text => text
  | Join e1 e2 => Error e1 ++ LF ++ Error e2
  end.

End errors.

Abbreviation error := errors.error.

Module fmt.
(** [fmt.Errorf(format, arg)] for a format that is a text followed by
    one [%s]: the only shape the package uses. *)
Definition Errorf (text arg : string) : error := errors.New (text ++ arg).
End fmt.

(** ** Panics

    A Go call either returns its results or panics. The framer has no
    [recover], so a panic in a callee is the outcome of the caller. *)

Inductive Outcome (A : Type) : Type :=
| Returns (a : A)
| Panics (message : string).

Arguments Returns {A} a.
Arguments Panics {A} message.

Definition bind {A B : Type} (c : Outcome A) (k : A -> Outcome B) : Outcome B :=
  match c with
  | Returns a => k a
  | Panics m => Panics m
  end.

Notation "x <- c ;; k" := (bind c (fun x => k))
  (at level 61, c at next level, right associativity).
Notation "' pat <- c ;; k" := (bind c (fun x => match x with pat => k end))
  (at level 61, pat pattern, c at next level, right associativity).

Definition panicked {A : Type} (c : Outcome A) : bool :=
  match c with Returns _ => false | Panics _ => true end.

(** ** Numbers and [interface{}] values

    [encoding/json] and gjson read a JSON number into a [float64]. The
    model keeps the decimal numeral the number was read from and does
    not round it to binary64; the two infinities, which gjson produces
    for a numeral beyond the float64 range, are values of their own. *)

Inductive float64 : Type :=
| Numeral (lexeme : string)
| Infinity (negative : bool).

(** The values an [interface{}] holds after [json.Unmarshal] or gjson's
    [Value()]: nil, bool, float64, string, [[]interface{}] and
    [map[string]interface{}]. A map is kept as the list of its entries in
    ascending key order, each key once: the order in which
    [json.Marshal] writes a map. *)
#[warnings="-register-all"]
Inductive GoValue : Type :=
| VNil
| VBool (b : bool)
| VFloat (f : float64)
| VString (s : string)
| VSlice (items : list GoValue)
| VMap (entries : list (string * GoValue)).

Module gomap.

Definition t (V : Type) : Type := list (string * V).

Definition empty {V : Type} : t V := [].

(** [m[k] = v] *)
Fixpoint set {V : Type} (m : t V) (k : string) (v : V) : t V :=
  match m with
  | [] => [(k, v)]
  | (k', v') :: m' =>
      match String.compare k k' with
      | Lt => (k, v) :: m
      | Eq => (k, v) :: m'
      | Gt => (k', v') :: set m' k v
      end
  end.

(** [v, ok := m[k]] *)
Fixpoint get {V : Type} (m : t V) (k : string) : option V :=
  match m with
  | [] => None
  | (k', v') :: m' => if String.eqb k k' then Some v' else get m' k
  end.

Definition keys {V : Type} (m : t V) : list string := map fst m.

Definition lt (a b : string) : Prop := String.compare a b = Lt.

End gomap.

(* ================================================================== *)
(** * The imported packages *)
(* ================================================================== *)

(** ** strings *)

Module strings.

(** The white space of [unicode.IsSpace], each code point as its UTF-8
    bytes: U+0009..U+000D, U+0020, U+0085, U+00A0, U+1680,
    U+2000..U+200A, U+2028, U+2029, U+202F, U+205F, U+3000. *)
Definition spaces : list string :=
  [ bytes [9]; bytes [10]; bytes [11]; bytes [12]; bytes [13]; bytes [32];
    bytes [194; 133]; bytes [194; 160]; bytes [225; 154; 128];
    bytes [226; 128; 128]; bytes [226; 128; 129]; bytes [226; 128; 130];
    bytes [226; 128; 131]; bytes [226; 128; 132]; bytes [226; 128; 133];
    bytes [226; 128; 134]; bytes [226; 128; 135]; bytes [226; 128; 136];
    bytes [226; 128; 137]; bytes [226; 128; 138]; bytes [226; 128; 168];
    bytes [226; 128; 169]; bytes [226; 128; 175]; bytes [226; 129; 159];
    bytes [227; 128; 128] ].

(** The length of the white-space code point [s] starts with, if any. *)
Fixpoint leading (seqs : list string) (s : string) : option nat :=
  match seqs with
  | [] => None
  | p :: seqs' => if isPrefix p s then Some (String.length p) else leading seqs' s
  end.

Fixpoint trimLeft (fuel : nat) (seqs : list string) (s : string) : string :=
  match fuel with
  | O => s
  | S fuel' =>
      match leading seqs s with
      | Some n => trimLeft fuel' seqs (dropString n s)
      | None => s
      end
  end.

Definition TrimLeftSpace (s : string) : string :=
  trimLeft (String.length s) spaces s.

(** Trailing white space is leading white space of the reversed text,
    each code point's bytes reversed too. *)
Definition TrimRightSpace (s : string) : string :=
  let r := rev_string s EmptyString in
  let seqs := map (fun p => rev_string p EmptyString) spaces in
  rev_string (trimLeft (String.length r) seqs r) EmptyString.

(** [strings.TrimSpace] *)
Definition TrimSpace (s : string) : string :=
  TrimRightSpace (TrimLeftSpace s).

End strings.


(** ** gjson (github.com/tidwall/gjson) *)

Module gjson.

(** [gjson.Type]: the kind of a result. *)
Inductive Type' : Type :=
| Null | False_ | Number | String_ | True_ | JSON.

Definition Type_eqb (a b : Type') : bool :=
  match a, b with
  | Null, Null | False_, False_ | Number, Number
  | String_, String_ | True_, True_ | JSON, JSON => true
  | _, _ => false
  end.

(** [gjson.Result]: the kind, the raw JSON text, and the decoded string
    or number. *)
Record Result : Type := {
  Type_ : Type';
  Raw : string;
  Str : string;
  Num : float64
}.

(** [Result{}], the result of a path that leads nowhere. *)
Definition zero : Result :=
  {| Type_ := Null; Raw := EmptyString; Str := EmptyString; Num := Numeral "0" |}.

(** [t.Exists()]: [t.Type != Null || len(t.Raw) != 0]. *)
Definition Exists (t : Result) : bool :=
  negb (Type_eqb (Type_ t) Null) || negb (isEmpty (Raw t)).

Definition startsWith (c : ascii) (s : string) : bool :=
  match s with
  | EmptyString => false
  | String a _ => Ascii.eqb a c
  end.

(** [t.IsObject()]: [t.Type == JSON && len(t.Raw) > 0 && t.Raw[0] == '{'] *)
Definition IsObject (t : Result) : bool :=
  Type_eqb (Type_ t) JSON && startsWith "{"%char (Raw t).

(** [t.IsArray()]: [t.Type == JSON && len(t.Raw) > 0 && t.Raw[0] == '['] *)
Definition IsArray (t : Result) : bool :=
  Type_eqb (Type_ t) JSON && startsWith "["%char (Raw t).

Definition isDigit (c : ascii) : bool :=
  Nat.leb 48 (nat_of_ascii c) && Nat.leb (nat_of_ascii c) 57.

Fixpoint allDigits (s : string) : bool :=
  match s with
  | EmptyString => true
  | String c s' => isDigit c && allDigits s'
  end.

(** What the package gets from gjson's scanners and from [strconv]:
    - [Valid json]: is the text one well-formed JSON value;
    - [Parse json]: the result for the whole text;
    - [Get json path]: the result at a path;
    - [members raw]: the results [Array()] lists for an array's raw text;
    - [ForEach t]: the (key, value) pairs [t.ForEach] hands to an iterator
      that keeps answering [true];
    - [valueOf raw]: the map or slice [Value()] builds from the raw text
      of an object or array;
    - [FormatFloat f]: [strconv.FormatFloat(f, 'f', -1, 64)]. *)
Class Lib : Type := {
  Valid : string -> bool;
  Parse : string -> Result;
  Get : string -> string -> Result;
  members : string -> list Result;
  ForEach : Result -> list (Result * Result);
  valueOf : string -> GoValue;
  FormatFloat : float64 -> string
}.

Section Methods.
Context `{Lib}.

(** [t.String()] *)
Definition String (t : Result) : string :=
  match Type_ t with
  | False_ => "false"
  | Number =>
      if isEmpty (Raw t) then FormatFloat (Num t)
      else
        let digits := if startsWith "-"%char (Raw t) then dropString 1 (Raw t) else Raw t in
        if allDigits digits then Raw t else FormatFloat (Num t)
  | String_ => Str t
  | JSON => Raw t
  | True_ => "true"
  | Null => EmptyString
  end.

(** [t.Value()] *)
Definition Value (t : Result) : GoValue :=
  match Type_ t with
  | String_ => VString (Str t)
  | False_ => VBool false
  | Number => VFloat (Num t)
  | JSON => valueOf (Raw t)
  | True_ => VBool true
  | Null => VNil
  end.

(** [t.Array()]: nothing for a null, the result itself when it is not
    an array, the members otherwise. *)
Definition Array (t : Result) : list Result :=
  if Type_eqb (Type_ t) Null then []
  else if negb (IsArray t) then [t]
  else members (Raw t).

End Methods.

End gjson.

(** ** encoding/json *)

Module json.

Class Lib : Type := {
  (** [err := json.Unmarshal([]byte(text), &out)] with [out] an
      [interface{}]: the value read and the error. *)
  Unmarshal : string -> GoValue * option error;
  (** [json.Marshal(v)] *)
  Marshal : GoValue -> string * option error
}.

End json.

(** ** jsonata (github.com/xiatechs/jsonata-go) *)

Module jsonata.

Class Lib : Type := {
  Expr : Type;
  (** [jsonata.Compile(expr)] *)
  Compile : string -> Expr + error;
  (** [e.Eval(data)] *)
  Eval : Expr -> GoValue -> GoValue * option error
}.

(** [jsonata.MustCompile(expr)]: "like Compile except it panics if given
    an invalid expression". What it returns is a pointer, here an
    [option], that is never nil. *)
Definition MustCompile `{Lib} (expr : string) : Outcome (option Expr) :=
  match Compile expr with
  | inl e => Returns (Some e)
  | inr err => Panics ("could not compile " ++ expr ++ ": " ++ errors.Error err)
  end.

End jsonata.

(** ** data (github.com/grafana/grafana-plugin-sdk-go/data) *)

Module data.

Inductive TimeSeriesType : Type :=
| TimeSeriesTypeNot | TimeSeriesTypeLong | TimeSeriesTypeWide.

Definition TimeSeriesType_eqb (a b : TimeSeriesType) : bool :=
  match a, b with
  | TimeSeriesTypeNot, TimeSeriesTypeNot
  | TimeSeriesTypeLong, TimeSeriesTypeLong
  | TimeSeriesTypeWide, TimeSeriesTypeWide => true
  | _, _ => false
  end.

Class Lib : Type := {
  Frame : Type;
  (** [frame.TimeSeriesSchema().Type] *)
  TimeSeriesSchemaType : Frame -> TimeSeriesType;
  (** [data.LongToWide(frame, nil)]; a [*data.Frame] is an [option]. *)
  LongToWide : Frame -> option Frame * option error
}.

End data.

(** ** gframer (lib/go/gframer of this repository) *)

Module gframer.

Record ColumnSelector : Type := {
  Selector : string;
  Alias : string;
  Type_ : string;
  TimeFormat : string
}.

(** The fields of [gframer.FramerOptions] the framer sets. *)
Record FramerOptions : Type := {
  FrameName : string;
  Columns : list ColumnSelector;
  OverrideColumns : list ColumnSelector
}.

Class Lib `{data.Lib} : Type := {
  (** [gframer.ToDataFrame(input, options)] *)
  ToDataFrame : GoValue -> FramerOptions -> option data.Frame * option error
}.

End gframer.


(* ================================================================== *)
(** * The framer: lib/go/jsonframer *)
(* ================================================================== *)

Module jsonframer.

(** ** errors.go *)

Definition ErrInvalidRootSelector : error :=
  errors.New "failed to compile JSONata expression".
Definition ErrEvaluatingJSONata : error :=
  errors.New "error evaluating JSONata expression".
Definition ErrInvalidJSONContent : error :=
  errors.New "invalid/empty JSON".

(** ** jsonframer.go: types *)

Definition FramerType : Type := string.
Definition FramerTypeGJSON : FramerType := "gjson".
Definition FramerTypeSQLite3 : FramerType := "sqlite3".

Definition FrameFormat : Type := string.
Definition FrameFormatTable : FrameFormat := "table".
Definition FrameFormatTimeSeries : FrameFormat := "timeseries".

Record ColumnSelector : Type := {
  Selector : string;
  Alias : string;
  Type_ : string;
  TimeFormat : string
}.

Record FramerOptions : Type := {
  FramerType_ : FramerType;
  SQLite3Query : string;
  FrameName : string;
  RootSelector : string;
  Columns : list ColumnSelector;
  OverrideColumns : list ColumnSelector;
  FrameFormat_ : FrameFormat
}.

(** [QueryJSONUsingSQLite3(json, query, rootSelector)] is a function of
    the package defined outside jsonframer.go; [ToFrame] only calls
    it. *)
Class SQLite3 : Type := {
  QueryJSONUsingSQLite3 : string -> string -> string -> string * option error
}.

Section Framer.
Context `{GJ : gjson.Lib} `{JS : json.Lib} `{JA : jsonata.Lib}
        `{DA : data.Lib} `{GF : @gframer.Lib DA} `{SQ : SQLite3}.

(** A [*data.Frame] and a [[]*data.Frame]. *)
Definition FramePtr : Type := option data.Frame.
Definition Frames : Type := list FramePtr.

(** ** validateJson (lines 46-54) *)
Definition validateJson (jsonString : string) : option error :=
  if isEmpty (strings.TrimSpace jsonString) then
    Some (errors.New "empty json received")
  else if negb (gjson.Valid jsonString) then
    Some (errors.New "invalid json response received")
  else None.

(** ** GetRootData (lines 151-179) *)
Definition GetRootData (jsonString rootSelector : string)
  : Outcome (string * option error) :=
  if negb (isEmpty rootSelector) then
    let r := gjson.Get jsonString rootSelector in
    if gjson.Exists r then Returns (gjson.String r, None)
    else
      expr <- jsonata.MustCompile rootSelector ;;
      match expr with
      | None =>
          let err := errors.New ("invalid root selector:" ++ rootSelector) in
          Returns (EmptyString, Some (errors.Join ErrInvalidRootSelector err))
      | Some expr =>
          let (data, err) := json.Unmarshal jsonString in
          match err with
          | Some err =>
              Returns (EmptyString, Some (errors.Join ErrInvalidJSONContent err))
          | None =>
              let (res, err) := jsonata.Eval expr data in
              match err with
              | Some err =>
                  Returns (EmptyString, Some (errors.Join ErrEvaluatingJSONata err))
              | None =>
                  let (r2, err) := json.Marshal res in
                  match err with
                  | Some err =>
                      Returns (EmptyString, Some (errors.Join ErrInvalidJSONContent err))
                  | None => Returns (r2, None)
                  end
              end
          end
      end
  else Returns (jsonString, None).

(** ** convertFieldValueType (lines 251-253) *)
Definition convertFieldValueType (input : GoValue) (_ : ColumnSelector) : GoValue :=
  input.

(** ** getColumnValuesFromResponseString (lines 181-218) *)

(** The name of a column (lines 190-193): [col.Alias], or
    [col.Selector] when the alias is the empty string. *)
Definition columnName (col : ColumnSelector) : string :=
  if isEmpty (Alias col) then Selector col else Alias col.

(** One output row: the statements of lines 188-195, which lines 201-208
    repeat word for word. [raw] is [value.Raw], or [result.Raw]. *)
Definition projectRow (raw : string) (columns : list ColumnSelector)
  : gomap.t GoValue :=
  fold_left
    (fun oi col =>
       gomap.set oi (columnName col)
         (convertFieldValueType
            (gjson.Value (gjson.Get raw (Selector col))) col))
    columns gomap.empty.

(** The rows appended to [out] (lines 185-210). *)
Definition projectRows (result : gjson.Result) (columns : list ColumnSelector)
  : list (gomap.t GoValue) :=
  let out := [] in
  let out :=
    if gjson.IsArray result then
      out ++ map (fun kv => projectRow (gjson.Raw (snd kv)) columns)
                 (gjson.ForEach result)
    else out in
  let out :=
    if negb (gjson.IsArray result) && gjson.IsObject result then
      out ++ [projectRow (gjson.Raw result) columns]
    else out in
  out.

Definition getColumnValuesFromResponseString
  (responseString : string) (columns : list ColumnSelector)
  : string * option error :=
  if Nat.ltb 0 (length columns) then
    let outString := responseString in
    let result := gjson.Parse outString in
    let out := projectRows result columns in
    let (a, err) := json.Marshal (VSlice (map VMap out)) in
    match err with
    | Some err => (EmptyString, Some err)
    | None => (a, None)
    end
  else (responseString, None).

(** ** getFrameFromResponseString (lines 220-249) *)

Definition toGframerColumn (c : ColumnSelector) : gframer.ColumnSelector :=
  {| gframer.Alias := Alias c;
     gframer.Selector := Selector c;
     gframer.Type_ := Type_ c;
     gframer.TimeFormat := TimeFormat c |}.

Definition getFrameFromResponseString
  (responseString : string) (options : FramerOptions)
  : FramePtr * option error :=
  let (out, err) := json.Unmarshal responseString in
  match err with
  | Some err =>
      (None, Some (fmt.Errorf "error while un-marshaling response. "
                              (errors.Error err)))
  | None =>
      let columns := map toGframerColumn (Columns options) in
      let overrides := map toGframerColumn (OverrideColumns options) in
      gframer.ToDataFrame out
        {| gframer.FrameName := FrameName options;
           gframer.Columns := columns;
           gframer.OverrideColumns := overrides |}
  end.

(** ** ToFrames (lines 56-123) *)

(** [options.FrameFormat == FrameFormatTimeSeries &&
     frame.TimeSeriesSchema().Type == data.TimeSeriesTypeLong] *)
Definition wantsWide (options : FramerOptions) (frame : data.Frame) : bool :=
  String.eqb (FrameFormat_ options) FrameFormatTimeSeries &&
  data.TimeSeriesType_eqb (data.TimeSeriesSchemaType frame) data.TimeSeriesTypeLong.

(** The loop of lines 89-104 over what is left of [result.Array()], and
    the [return frames, err] of line 105 after it, where [err] is the
    nil that line 70 has just tested. *)
Fixpoint framesLoop (options : FramerOptions) (items : list gjson.Result)
  (frames : Frames) : Frames * option error :=
  match items with
  | [] => (frames, None)
  | v :: items' =>
      let (frame, err) := getFrameFromResponseString (gjson.Raw v) options in
      match err with
      | Some _ => (frames, err)
      | None =>
          match frame with
          | Some f =>
              if wantsWide options f then
                let (frame, err) := data.LongToWide f in
                match err with
                | Some _ => (frames, err)
                | None => framesLoop options items' (frames ++ [frame])
                end
              else framesLoop options items' (frames ++ [frame])
          | None => framesLoop options items' frames
          end
      end
  end.

(** The loop of lines 76-80. *)
Definition nonArrayItemsFound (items : list gjson.Result) : bool :=
  existsb (fun item => gjson.Exists item && negb (gjson.IsArray item)) items.

Definition ToFrames (jsonString : string) (options : FramerOptions)
  : Outcome (Frames * option error) :=
  let frames : Frames := [] in
  let err := validateJson jsonString in
  match err with
  | Some _ => Returns (frames, err)
  | None =>
      if String.eqb (FramerType_ options) "sqlite3" then
        Returns (frames,
                 Some (errors.New "multi frame support not implemented for sqlite3 parser"))
      else
        ' (outString, err') <- GetRootData jsonString (RootSelector options) ;;
        match err' with
        | Some _ => Returns (frames, err')
        | None =>
            let (outString, err') :=
              getColumnValuesFromResponseString outString (Columns options) in
            match err' with
            | Some _ => Returns (frames, err')
            | None =>
                let result := gjson.Parse outString in
                if gjson.IsArray result then
                  if nonArrayItemsFound (gjson.Array result) then
                    let (frame, err'') := getFrameFromResponseString outString options in
                    match err'' with
                    | Some _ => Returns (frames, err'')
                    | None => Returns (frames ++ [frame], err'')
                    end
                  else Returns (framesLoop options (gjson.Array result) frames)
                else
                  let (frame, err') := getFrameFromResponseString outString options in
                  match err' with
                  | Some _ => Returns (frames, err')
                  | None =>
                      match frame with
                      | Some f =>
                          if wantsWide options f then
                            let (frame, err') := data.LongToWide f in
                            match err' with
                            | Some _ => Returns (frames, err')
                            | None => Returns (frames ++ [frame], err)
                            end
                          else Returns (frames ++ [frame], err)
                      | None => Returns (frames, err)
                      end
                  end
            end
        end
  end.

(** ** ToFrame (lines 125-149) *)
Definition ToFrame (jsonString : string) (options : FramerOptions)
  : Outcome (FramePtr * option error) :=
  let frame : FramePtr := None in
  let err := validateJson jsonString in
  match err with
  | Some _ => Returns (frame, err)
  | None =>
      let outString := jsonString in
      if String.eqb (FramerType_ options) "sqlite3" then
        let (outString, err) :=
          QueryJSONUsingSQLite3 outString (SQLite3Query options) (RootSelector options) in
        match err with
        | Some _ => Returns (frame, err)
        | None => Returns (getFrameFromResponseString outString options)
        end
      else
        ' (outString, err) <- GetRootData jsonString (RootSelector options) ;;
        match err with
        | Some _ => Returns (frame, err)
        | None =>
            let (outString, err) :=
              getColumnValuesFromResponseString outString (Columns options) in
            match err with
            | Some _ => Returns (frame, err)
            | None => Returns (getFrameFromResponseString outString options)
            end
        end
  end.

End Framer.

End jsonframer.


(* ================================================================== *)
(** * Reference implementations of the imported packages *)
(* ================================================================== *)

(** Executable instances of the classes above, to run the framer on
    concrete texts. They implement RFC 8259 JSON strictly. Where a
    library is more lenient than the grammar, or offers more than the
    fragment implemented here, the comment of the definition says what
    is left out; the texts the properties are evaluated on stay inside
    the fragment. *)

Module Reference.

(** ** JSON texts *)

Definition code (c : ascii) : N := N_of_ascii c.

Definition isByte (c : ascii) (n : N) : bool := N.eqb (code c) n.

(** The white space of the JSON grammar: space, tab, line feed, carriage
    return. *)
Definition isWs (c : ascii) : bool :=
  isByte c 32 || isByte c 9 || isByte c 10 || isByte c 13.

Fixpoint skipWs (s : string) : string :=
  match s with
  | String c s' => if isWs c then skipWs s' else s
  | EmptyString => s
  end.

Definition isDigit (c : ascii) : bool := N.leb 48 (code c) && N.leb (code c) 57.

Definition hexValue (c : ascii) : option N :=
  let n := code c in
  if N.leb 48 n && N.leb n 57 then Some (n - 48)%N
  else if N.leb 97 n && N.leb n 102 then Some (n - 87)%N
  else if N.leb 65 n && N.leb n 70 then Some (n - 55)%N
  else None.

Definition hex4 (a b c d : ascii) : option N :=
  match hexValue a, hexValue b, hexValue c, hexValue d with
  | Some x, Some y, Some z, Some w => Some (((x * 16 + y) * 16 + z) * 16 + w)%N
  | _, _, _, _ => None
  end.

(** What a string literal is made of: a byte, or a [\uXXXX] escape. *)
Inductive Unit : Type :=
| UByte (c : ascii)
| UCode (n : N).

(** The byte a two-character escape stands for. *)
Definition simpleEscape (e : ascii) : option ascii :=
  if isByte e 34 then Some (byte 34)
  else if isByte e 92 then Some (byte 92)
  else if isByte e 47 then Some (byte 47)
  else if isByte e 98 then Some (byte 8)
  else if isByte e 102 then Some (byte 12)
  else if isByte e 110 then Some (byte 10)
  else if isByte e 114 then Some (byte 13)
  else if isByte e 116 then Some (byte 9)
  else None.

Definition consUnit (u : Unit) (r : option (list Unit * string))
  : option (list Unit * string) :=
  match r with
  | Some (us, rest) => Some (u :: us, rest)
  | None => None
  end.

(** The body of a string literal, after its opening quote, up to and
    including the closing quote. Control characters are refused. *)
Fixpoint scanUnits (s : string) : option (list Unit * string) :=
  match s with
  | EmptyString => None
  | String c s' =>
      if isByte c 34 then Some ([], s')
      else if isByte c 92 then
        match s' with
        | String e s'' =>
            if isByte e 117 then
              match s'' with
              | String h1 (String h2 (String h3 (String h4 r))) =>
                  match hex4 h1 h2 h3 h4 with
                  | Some n => consUnit (UCode n) (scanUnits r)
                  | None => None
                  end
              | _ => None
              end
            else
              match simpleEscape e with
              | Some b => consUnit (UByte b) (scanUnits s'')
              | None => None
              end
        | EmptyString => None
        end
      else if N.ltb (code c) 32 then None
      else consUnit (UByte c) (scanUnits s')
  end.

Definition byteN (n : N) : ascii := ascii_of_N n.

(** UTF-8 of a code point. *)
Definition utf8 (n : N) : string :=
  if N.ltb n 128 then String (byteN n) EmptyString
  else if N.ltb n 2048 then
    String (byteN (192 + n / 64)) (String (byteN (128 + n mod 64)) EmptyString)
  else if N.ltb n 65536 then
    String (byteN (224 + n / 4096))
      (String (byteN (128 + (n / 64) mod 64))
         (String (byteN (128 + n mod 64)) EmptyString))
  else
    String (byteN (240 + n / 262144))
      (String (byteN (128 + (n / 4096) mod 64))
         (String (byteN (128 + (n / 64) mod 64))
            (String (byteN (128 + n mod 64)) EmptyString))).

Definition isHighSurrogate (n : N) : bool := N.leb 55296 n && N.leb n 56319.
Definition isLowSurrogate (n : N) : bool := N.leb 56320 n && N.leb n 57343.

(** The decoded string: a surrogate pair is one code point, a surrogate
    on its own is U+FFFD. *)
Fixpoint decodeUnits (us : list Unit) : string :=
  match us with
  | [] => EmptyString
  | UByte c :: us' => String c (decodeUnits us')
  | UCode n :: us' =>
      if isHighSurrogate n then
        match us' with
        | UCode m :: us'' =>
            if isLowSurrogate m then
              utf8 (65536 + (n - 55296) * 1024 + (m - 56320)) ++ decodeUnits us''
            else utf8 65533 ++ decodeUnits us'
        | _ => utf8 65533 ++ decodeUnits us'
        end
      else if isLowSurrogate n then utf8 65533 ++ decodeUnits us'
      else utf8 n ++ decodeUnits us'
  end.

Definition scanString (s : string) : option (string * string) :=
  match scanUnits s with
  | Some (us, rest) => Some (decodeUnits us, rest)
  | None => None
  end.

Fixpoint spanDigits (s : string) : string * string :=
  match s with
  | String c s' =>
      if isDigit c then let (d, r) := spanDigits s' in (String c d, r)
      else (EmptyString, s)
  | EmptyString => (EmptyString, s)
  end.

(** A number of the grammar: an optional minus sign; a zero, or digits
    that do not start with a zero; optionally a point and digits;
    optionally an [e] or [E], a sign and digits. *)
Definition scanNumber (s : string) : option (string * string) :=
  let (sign, s1) :=
    match s with
    | String c s' => if isByte c 45 then ("-", s') else (EmptyString, s)
    | EmptyString => (EmptyString, s)
    end in
  let (int, s2) := spanDigits s1 in
  let intOk :=
    match int with
    | EmptyString => false
    | String c EmptyString => true
    | String c _ => negb (isByte c 48)
    end in
  if negb intOk then None
  else
    let fracPart :=
      match s2 with
      | String c s' =>
          if isByte c 46 then
            let (d, r) := spanDigits s' in
            if isEmpty d then None else Some (String.append "." d, r)
          else Some (EmptyString, s2)
      | EmptyString => Some (EmptyString, s2)
      end in
    match fracPart with
    | None => None
    | Some (frac, s3) =>
        let expPart :=
          match s3 with
          | String c s' =>
              if isByte c 101 || isByte c 69 then
                let (esign, s'') :=
                  match s' with
                  | String g r =>
                      if isByte g 43 || isByte g 45 then (String g EmptyString, r)
                      else (EmptyString, s')
                  | EmptyString => (EmptyString, s')
                  end in
                let (d, r) := spanDigits s'' in
                if isEmpty d then None
                else Some (String c (String.append esign d), r)
              else Some (EmptyString, s3)
          | EmptyString => Some (EmptyString, s3)
          end in
        match expPart with
        | None => None
        | Some (ex, s4) => Some (String.append sign (String.append int (String.append frac ex)), s4)
        end
    end.

(** A parsed text. Every member of an array or object keeps the text it
    was read from, which is what gjson calls its [Raw]. *)
#[warnings="-register-all"]
Inductive Tree : Type :=
| TNull
| TTrue
| TFalse
| TNumber (lexeme : string)
| TString (decoded : string)
| TArray (items : list (string * Tree))
| TObject (members : list (string * (string * Tree))).

(** The text [s] has lost when [rest] is what is left of it. *)
Definition consumed (s rest : string) : string :=
  takeString (String.length s - String.length rest) s.

Definition literal (word : string) (t : Tree) (s : string) : option (Tree * string) :=
  if isPrefix word s then Some (t, dropString (String.length word) s) else None.

(** [parseValue fuel s] reads one value at the start of [s], which has
    no leading white space. [parseItems] reads the members of an array
    from the first one to the closing bracket, [parseMembers] those of
    an object from the first key. *)
Fixpoint parseValue (fuel : nat) (s : string) : option (Tree * string) :=
  match fuel with
  | O => None
  | S fuel' =>
      match s with
      | EmptyString => None
      | String c s' =>
          if isByte c 123 then
            match skipWs s' with
            | String d r =>
                if isByte d 125 then Some (TObject [], r)
                else parseMembers fuel' (String d r) []
            | EmptyString => None
            end
          else if isByte c 91 then
            match skipWs s' with
            | String d r =>
                if isByte d 93 then Some (TArray [], r)
                else parseItems fuel' (String d r) []
            | EmptyString => None
            end
          else if isByte c 34 then
            match scanString s' with
            | Some (str, r) => Some (TString str, r)
            | None => None
            end
          else if isByte c 116 then literal "true" TTrue s
          else if isByte c 102 then literal "false" TFalse s
          else if isByte c 110 then literal "null" TNull s
          else
            match scanNumber s with
            | Some (lexeme, r) => Some (TNumber lexeme, r)
            | None => None
            end
      end
  end
with parseItems (fuel : nat) (s : string) (acc : list (string * Tree))
  : option (Tree * string) :=
  match fuel with
  | O => None
  | S fuel' =>
      match parseValue fuel' s with
      | Some (t, r) =>
          let acc' := acc ++ [(consumed s r, t)] in
          match skipWs r with
          | String d r' =>
              if isByte d 44 then parseItems fuel' (skipWs r') acc'
              else if isByte d 93 then Some (TArray acc', r')
              else None
          | EmptyString => None
          end
      | None => None
      end
  end
with parseMembers (fuel : nat) (s : string) (acc : list (string * (string * Tree)))
  : option (Tree * string) :=
  match fuel with
  | O => None
  | S fuel' =>
      match s with
      | String c s' =>
          if isByte c 34 then
            match scanString s' with
            | Some (key, r) =>
                match skipWs r with
                | String d r' =>
                    if isByte d 58 then
                      let v := skipWs r' in
                      match parseValue fuel' v with
                      | Some (t, r'') =>
                          let acc' := acc ++ [(key, (consumed v r'', t))] in
                          match skipWs r'' with
                          | String e r3 =>
                              if isByte e 44 then parseMembers fuel' (skipWs r3) acc'
                              else if isByte e 125 then Some (TObject acc', r3)
                              else None
                          | EmptyString => None
                          end
                      | None => None
                      end
                    else None
                | EmptyString => None
                end
            | None => None
            end
          else None
      | EmptyString => None
      end
  end.

(** One value with white space around it, and nothing else. *)
Definition parseText (s : string) : option (string * Tree) :=
  let v := skipWs s in
  match parseValue (2 * String.length v + 2) v with
  | Some (t, r) => if isEmpty (skipWs r) then Some (consumed v r, t) else None
  | None => None
  end.

(** ** Numbers *)

Fixpoint digitsValue (s : string) (acc : Z) : Z :=
  match s with
  | String c s' => digitsValue s' (10 * acc + Z.of_N (code c - 48))%Z
  | EmptyString => acc
  end.

(** A numeral of the grammar as sign, digits before and after the point,
    and decimal exponent. *)
Definition numeralParts (lexeme : string) : bool * string * string * Z :=
  let (negative, s1) :=
    match lexeme with
    | String c s' => if isByte c 45 then (true, s') else (false, lexeme)
    | EmptyString => (false, lexeme)
    end in
  let (int, s2) := spanDigits s1 in
  let (frac, s3) :=
    match s2 with
    | String c s' => if isByte c 46 then spanDigits s' else (EmptyString, s2)
    | EmptyString => (EmptyString, s2)
    end in
  let ex :=
    match s3 with
    | String _ (String g r) =>
        if isByte g 45 then (- digitsValue r 0)%Z
        else if isByte g 43 then digitsValue r 0
        else digitsValue (String g r) 0
    | _ => 0%Z
    end in
  (negative, int, frac, ex).

(** The least magnitude that rounds to an infinity in binary64:
    [2^1024 - 2^970]. *)
Definition float64Limit : Z := (2 ^ 1024 - 2 ^ 970)%Z.

(** Does [strconv.ParseFloat(lexeme, 64)] report a range error. *)
Definition outOfRange (lexeme : string) : bool :=
  match numeralParts lexeme with
  | (_, int, frac, ex) =>
      let m := digitsValue (String.append int frac) 0 in
      let e := (ex - Z.of_nat (String.length frac))%Z in
      let d := Z.of_nat (String.length int + String.length frac) in
      if Z.eqb m 0 then false
      else if Z.ltb 310 e then true
      else if Z.ltb (d + e) 300 then false
      else if Z.leb 0 e then Z.leb float64Limit (m * 10 ^ e)
      else Z.leb (float64Limit * 10 ^ (- e)) m
  end.

Definition isNegative (lexeme : string) : bool :=
  match lexeme with
  | String c _ => isByte c 45
  | EmptyString => false
  end.

(** The [float64] gjson keeps for a numeral: [strconv.ParseFloat] with
    its error dropped, which is an infinity beyond the range. *)
Definition numOf (lexeme : string) : float64 :=
  if outOfRange lexeme then Infinity (isNegative lexeme) else Numeral lexeme.

(** The [interface{}] value of a parsed text. In a map a later
    duplicate of a key replaces the earlier one. *)
Fixpoint treeValue (t : Tree) : GoValue :=
  match t with
  | TNull => VNil
  | TTrue => VBool true
  | TFalse => VBool false
  | TNumber lexeme => VFloat (numOf lexeme)
  | TString s => VString s
  | TArray items => VSlice (map (fun it => treeValue (snd it)) items)
  | TObject members =>
      VMap (fold_left
              (fun m kv => gomap.set m (fst kv) (treeValue (snd (snd kv))))
              members gomap.empty)
  end.

(** The first numeral of a parsed text that is out of the float64
    range. *)
Fixpoint firstOutOfRange (t : Tree) : option string :=
  match t with
  | TNumber lexeme => if outOfRange lexeme then Some lexeme else None
  | TArray items =>
      fold_left
        (fun found it =>
           match found with
           | Some _ => found
           | None => firstOutOfRange (snd it)
           end)
        items None
  | TObject members =>
      fold_left
        (fun found kv =>
           match found with
           | Some _ => found
           | None => firstOutOfRange (snd (snd kv))
           end)
        members None
  | _ => None
  end.

(** ** gjson *)

Definition resultOf (raw : string) (t : Tree) : gjson.Result :=
  match t with
  | TNull => {| gjson.Type_ := gjson.Null; gjson.Raw := raw;
                gjson.Str := EmptyString; gjson.Num := Numeral "0" |}
  | TTrue => {| gjson.Type_ := gjson.True_; gjson.Raw := raw;
                gjson.Str := EmptyString; gjson.Num := Numeral "0" |}
  | TFalse => {| gjson.Type_ := gjson.False_; gjson.Raw := raw;
                 gjson.Str := EmptyString; gjson.Num := Numeral "0" |}
  | TNumber lexeme => {| gjson.Type_ := gjson.Number; gjson.Raw := raw;
                         gjson.Str := EmptyString; gjson.Num := numOf lexeme |}
  | TString s => {| gjson.Type_ := gjson.String_; gjson.Raw := raw;
                    gjson.Str := s; gjson.Num := Numeral "0" |}
  | TArray _ | TObject _ =>
      {| gjson.Type_ := gjson.JSON; gjson.Raw := raw;
         gjson.Str := EmptyString; gjson.Num := Numeral "0" |}
  end.

(** [gjson.Valid] *)
Definition Valid (json : string) : bool :=
  match parseText json with
  | Some _ => true
  | None => false
  end.

(** gjson steps over every byte up to the space before a value. *)
Fixpoint skipLow (s : string) : string :=
  match s with
  | String c s' => if N.leb (code c) 32 then skipLow s' else s
  | EmptyString => s
  end.

(** [gjson.Parse]. A text that starts with a brace or a bracket is a
    JSON result whose raw text is all that follows, well formed or not,
    as in gjson. A scalar is read by the grammar; gjson's looser reading
    of a malformed scalar is left out: it is [Result{}] here. *)
Definition Parse (json : string) : gjson.Result :=
  let s := skipLow json in
  match s with
  | EmptyString => gjson.zero
  | String c _ =>
      if isByte c 123 || isByte c 91 then
        {| gjson.Type_ := gjson.JSON; gjson.Raw := s;
           gjson.Str := EmptyString; gjson.Num := Numeral "0" |}
      else
        match parseValue (2 * String.length s + 2) s with
        | Some (t, r) => resultOf (consumed s r) t
        | None => gjson.zero
        end
  end.

(** The members of an array's raw text. gjson also lists what it can
    scan of a malformed text; here a malformed text has no members. *)
Definition members (raw : string) : list gjson.Result :=
  match parseText raw with
  | Some (_, TArray items) => map (fun it => resultOf (fst it) (snd it)) items
  | _ => []
  end.

Fixpoint natDigits (fuel n : nat) (acc : string) : string :=
  match fuel with
  | O => acc
  | S fuel' =>
      let acc' := String (byte (48 + n mod 10)) acc in
      if Nat.ltb n 10 then acc' else natDigits fuel' (n / 10) acc'
  end.

Definition decimal (n : nat) : string := natDigits (S n) n EmptyString.

Definition indexKey (i : nat) : gjson.Result :=
  {| gjson.Type_ := gjson.Number; gjson.Raw := EmptyString;
     gjson.Str := EmptyString; gjson.Num := Numeral (decimal i) |}.

Definition memberKey (key : string) : gjson.Result :=
  {| gjson.Type_ := gjson.String_; gjson.Raw := EmptyString;
     gjson.Str := key; gjson.Num := Numeral "0" |}.

(** [t.ForEach]: nothing for a result that does not exist, the result
    itself when it is a scalar, the members of an array with their
    index, the members of an object with their key. *)
Definition ForEach (t : gjson.Result) : list (gjson.Result * gjson.Result) :=
  if negb (gjson.Exists t) then []
  else if negb (gjson.Type_eqb (gjson.Type_ t) gjson.JSON) then [(gjson.zero, t)]
  else
    match parseText (gjson.Raw t) with
    | Some (_, TArray items) =>
        map (fun iv => (indexKey (fst iv), resultOf (fst (snd iv)) (snd (snd iv))))
            (combine (seq 0 (length items)) items)
    | Some (_, TObject members) =>
        map (fun kv => (memberKey (fst kv), resultOf (fst (snd kv)) (snd (snd kv))))
            members
    | _ => []
    end.

(** The map or slice of [Value()]. *)
Definition valueOf (raw : string) : GoValue :=
  match parseText raw with
  | Some (_, TArray items) => treeValue (TArray items)
  | Some (_, TObject members) => treeValue (TObject members)
  | _ => VNil
  end.

(** [strconv.FormatFloat(f, 'f', -1, 64)]. Go writes the shortest plain
    decimal that reads back as the same float64; the numeral is written
    here as it was read, which is that decimal for an integer numeral of
    at most fifteen digits. *)
Definition FormatFloat (f : float64) : string :=
  match f with
  | Numeral lexeme => lexeme
  | Infinity false => "+Inf"
  | Infinity true => "-Inf"
  end.

(** *** Paths

    The fragment of gjson's path syntax implemented: components
    separated by dots, each a non-empty run of letters, digits, [_] and
    [-]. A component names a key of an object, or, when it is a number,
    an index of an array. Any other path (wildcards, [#], queries,
    modifiers, escapes, pipes) leads nowhere here. *)

Definition isPlain (c : ascii) : bool :=
  let n := code c in
  (N.leb 48 n && N.leb n 57) || (N.leb 65 n && N.leb n 90) ||
  (N.leb 97 n && N.leb n 122) || N.eqb n 95 || N.eqb n 45.

Fixpoint allPlain (s : string) : bool :=
  match s with
  | String c s' => isPlain c && allPlain s'
  | EmptyString => true
  end.

Fixpoint splitDots (s cur : string) : list string :=
  match s with
  | EmptyString => [rev_string cur EmptyString]
  | String c s' =>
      if isByte c 46 then rev_string cur EmptyString :: splitDots s' EmptyString
      else splitDots s' (String c cur)
  end.

Definition components (path : string) : option (list string) :=
  let parts := splitDots path EmptyString in
  if forallb (fun p => negb (isEmpty p) && allPlain p) parts then Some parts
  else None.

Fixpoint lookupKey (key : string) (members : list (string * (string * Tree)))
  : option (string * Tree) :=
  match members with
  | [] => None
  | (k, rt) :: members' => if String.eqb k key then Some rt else lookupKey key members'
  end.

Fixpoint allDigits (s : string) : bool :=
  match s with
  | String c s' => isDigit c && allDigits s'
  | EmptyString => true
  end.

(** The index a numeric component stands for, when it is within an
    array of [len] members. *)
Definition indexOf (part : string) (len : nat) : option nat :=
  if allDigits part then
    let i := Z.to_N (digitsValue part 0) in
    if N.ltb i (N.of_nat len) then Some (N.to_nat i) else None
  else None.

Definition lookupIndex (part : string) (items : list (string * Tree))
  : option (string * Tree) :=
  match indexOf part (length items) with
  | Some i => nth_error items i
  | None => None
  end.

Fixpoint navigate (parts : list string) (raw : string) (t : Tree) : gjson.Result :=
  match parts with
  | [] => resultOf raw t
  | part :: parts' =>
      match t with
      | TObject members =>
          match lookupKey part members with
          | Some (raw', t') => navigate parts' raw' t'
          | None => gjson.zero
          end
      | TArray items =>
          match lookupIndex part items with
          | Some (raw', t') => navigate parts' raw' t'
          | None => gjson.zero
          end
      | _ => gjson.zero
      end
  end.

(** [gjson.Get] *)
Definition Get (json path : string) : gjson.Result :=
  match components path, parseText json with
  | Some parts, Some (raw, t) => navigate parts raw t
  | _, _ => gjson.zero
  end.

#[export] Instance gjsonLib : gjson.Lib := {|
  gjson.Valid := Valid;
  gjson.Parse := Parse;
  gjson.Get := Get;
  gjson.members := members;
  gjson.ForEach := ForEach;
  gjson.valueOf := valueOf;
  gjson.FormatFloat := FormatFloat
|}.

(** ** encoding/json *)

(** [json.Unmarshal] into an [interface{}]. Of an error only the
    presence is modelled for a malformed text; the wording is Go's for a
    numeral out of the float64 range. *)
Definition Unmarshal (text : string) : GoValue * option error :=
  match parseText text with
  | None => (VNil, Some (errors.New "invalid JSON text"))
  | Some (_, t) =>
      match firstOutOfRange t with
      | Some lexeme =>
          (VNil,
           Some (errors.New
                   (String.append "json: cannot unmarshal number "
                      (String.append lexeme " into Go value of type float64"))))
      | None => (treeValue t, None)
      end
  end.

Definition hexDigit (n : N) : ascii :=
  if N.ltb n 10 then byteN (48 + n) else byteN (87 + n).

(** A string as [json.Marshal] writes it between the quotes: the quote
    and the backslash escaped, control characters escaped, and [<], [>],
    [&], U+2028 and U+2029 written as [\u] escapes. Bytes that are not
    UTF-8 are copied as they are (Go writes the escape of U+FFFD for them). *)
Fixpoint escape (s : string) : string :=
  match s with
  | EmptyString => EmptyString
  | String c s' =>
      let n := code c in
      let rest := escape s' in
      if N.eqb n 34 then String.append (String (byte 92) dquote) rest
      else if N.eqb n 92 then String.append "\\" rest
      else if N.eqb n 10 then String.append "\n" rest
      else if N.eqb n 13 then String.append "\r" rest
      else if N.eqb n 9 then String.append "\t" rest
      else if N.eqb n 8 then String.append "\b" rest
      else if N.eqb n 12 then String.append "\f" rest
      else if N.ltb n 32 || N.eqb n 60 || N.eqb n 62 || N.eqb n 38 then
        String.append "\u00" (String (hexDigit (n / 16)) (String (hexDigit (n mod 16)) rest))
      else
        match s' with
        | String a (String b s'') =>
            if N.eqb n 226 && isByte a 128 && (isByte b 168 || isByte b 169) then
              String.append (if isByte b 168 then "\u2028" else "\u2029") (escape s'')
            else String c rest
        | _ => String c rest
        end
  end.

Definition quoted (s : string) : string :=
  String.append dquote (String.append (escape s) dquote).

Fixpoint joinComma (parts : list string) : string :=
  match parts with
  | [] => EmptyString
  | [p] => p
  | p :: parts' => String.append p (String.append "," (joinComma parts'))
  end.

(** The text of a value; a map is written in the order of its entries,
    which is the ascending order of its keys. *)
Fixpoint marshalValue (v : GoValue) : string :=
  match v with
  | VNil => "null"
  | VBool true => "true"
  | VBool false => "false"
  | VFloat f => FormatFloat f
  | VString s => quoted s
  | VSlice items =>
      String.append "[" (String.append (joinComma (map marshalValue items)) "]")
  | VMap entries =>
      String.append "{"
        (String.append
           (joinComma
              (map (fun kv =>
                      String.append (quoted (fst kv))
                        (String.append ":" (marshalValue (snd kv))))
                   entries))
           "}")
  end.

(** The first infinity in a value, which [json.Marshal] refuses. *)
Fixpoint firstInfinity (v : GoValue) : option bool :=
  match v with
  | VFloat (Infinity negative) => Some negative
  | VSlice items =>
      fold_left
        (fun found it => match found with Some _ => found | None => firstInfinity it end)
        items None
  | VMap entries =>
      fold_left
        (fun found kv =>
           match found with Some _ => found | None => firstInfinity (snd kv) end)
        entries None
  | _ => None
  end.

(** [json.Marshal] *)
Definition Marshal (v : GoValue) : string * option error :=
  match firstInfinity v with
  | Some negative =>
      (EmptyString,
       Some (errors.New (String.append "json: unsupported value: "
                           (if negative then "-Inf" else "+Inf"))))
  | None => (marshalValue v, None)
  end.

#[export] Instance jsonLib : json.Lib := {|
  json.Unmarshal := Unmarshal;
  json.Marshal := Marshal
|}.

(** ** jsonata

    The expression language is a collaborator the framer treats as a
    black box. The reference knows two things about it: a program whose
    last character is an opening bracket does not compile, and the
    program [$] evaluates to the document itself. Any other program
    compiles, and its evaluation is not modelled: it reports an error
    here. *)

Inductive Program : Type :=
| ContextValue
| Unmodelled (text : string).

Definition endsWithOpening (s : string) : bool :=
  match rev_string s EmptyString with
  | String c _ => isByte c 40 || isByte c 91 || isByte c 123
  | EmptyString => false
  end.

Definition Compile (expr : string) : Program + error :=
  let e := strings.TrimSpace expr in
  if endsWithOpening e then
    inr (errors.New "syntax error: unexpected end of expression")
  else if String.eqb e "$" then inl ContextValue
  else inl (Unmodelled expr).

Definition Eval (p : Program) (data : GoValue) : GoValue * option error :=
  match p with
  | ContextValue => (data, None)
  | Unmodelled _ =>
      (VNil, Some (errors.New "evaluation of this program is not modelled"))
  end.

#[export] Instance jsonataLib : jsonata.Lib := {|
  jsonata.Expr := Program;
  jsonata.Compile := Compile;
  jsonata.Eval := Eval
|}.

(** ** The SQLite3 query helper: not modelled, it reports an error. *)
#[export] Instance sqlite3 : jsonframer.SQLite3 := {|
  jsonframer.QueryJSONUsingSQLite3 := fun _ _ _ =>
    (EmptyString, Some (errors.New "sqlite3 queries are not modelled"))
|}.

(** ** Frames

    The frame type of the SDK, the frame assembler [gframer.ToDataFrame]
    and the reshaper [data.LongToWide] are not part of jsonframer.go.
    The reference instances below follow the description of frames, of
    the Frame Assembler and of the Time Series Reshaper in the
    specification of the package. *)

Inductive FieldType : Type :=
| FieldUntyped | FieldString | FieldNumber | FieldBool | FieldTime.

Definition FieldType_eqb (a b : FieldType) : bool :=
  match a, b with
  | FieldUntyped, FieldUntyped | FieldString, FieldString
  | FieldNumber, FieldNumber | FieldBool, FieldBool
  | FieldTime, FieldTime => true
  | _, _ => false
  end.

(** A cell: Null, a scalar, a time in milliseconds since the epoch, or
    a nested array or object. *)
Inductive Cell : Type :=
| CNull
| CBool (b : bool)
| CNumber (f : float64)
| CString (s : string)
| CTime (ms : Z)
| CNested (v : GoValue).

(** Modelled from the spec: the Frame of the data model, a name and an
    ordered list of columns (name, type, values), all value lists of one
    length. The labels of a column name the series it holds after
    reshaping. *)
Record Field : Type := {
  fieldName : string;
  fieldLabels : list (string * string);
  fieldType : FieldType;
  fieldValues : list Cell
}.

Record Frame : Type := {
  frameName : string;
  frameFields : list Field
}.

(** Modelled from the spec: the row count of a frame, which is the
    length of its value lists; a frame without columns has no row. *)
Definition Rows (f : Frame) : nat :=
  match frameFields f with
  | [] => 0
  | c :: _ => length (fieldValues c)
  end.

Definition fieldNames (f : Frame) : list string :=
  map fieldName (frameFields f).

(** The cell a decoded value makes, before any conversion. *)
Definition cellOf (v : GoValue) : Cell :=
  match v with
  | VNil => CNull
  | VBool b => CBool b
  | VFloat f => CNumber f
  | VString s => CString s
  | VSlice _ | VMap _ => CNested v
  end.

(** Modelled from the spec: the row set of an input, which is the
    elements of an array, or the single object or scalar. *)
Definition rowsOf (input : GoValue) : list GoValue :=
  match input with
  | VSlice items => items
  | _ => [input]
  end.

(** Modelled from the spec: the keys of a row that is an object, the
    indices of a row that is an array. The spec names no column for a
    scalar row. *)
Definition keysOf (row : GoValue) : list string :=
  match row with
  | VMap entries => map fst entries
  | VSlice items => map decimal (seq 0 (length items))
  | _ => []
  end.

Definition member (k : string) (l : list string) : bool :=
  existsb (String.eqb k) l.

Fixpoint addNew (seen new : list string) : list string :=
  match new with
  | [] => seen
  | k :: new' => if member k seen then addNew seen new' else addNew (seen ++ [k]) new'
  end.

(** Modelled from the spec: the inferred columns, the union of the keys
    of all rows in first-seen order. *)
Definition inferredNames (rows : list GoValue) : list string :=
  fold_left (fun seen row => addNew seen (keysOf row)) rows [].

(** Modelled from the spec: the output name of a ColumnSpec, its alias,
    or its selector when it has none. *)
Definition specName (c : gframer.ColumnSelector) : string :=
  if isEmpty (gframer.Alias c) then gframer.Selector c else gframer.Alias c.

(** Modelled from the spec: the value of a row in a column; a missing
    value is Null. *)
Definition cellAt (name : string) (row : GoValue) : Cell :=
  match row with
  | VMap entries =>
      match gomap.get entries name with
      | Some v => cellOf v
      | None => CNull
      end
  | VSlice items =>
      match indexOf name (length items) with
      | Some i =>
          match nth_error items i with
          | Some v => cellOf v
          | None => CNull
          end
      | None => CNull
      end
  | _ => CNull
  end.

(** Modelled from the spec: the column type a declared Type stands
    for; [auto], or none, leaves the type to inference. *)
Definition declaredType (ty : string) : option FieldType :=
  if String.eqb ty "string" then Some FieldString
  else if String.eqb ty "number" then Some FieldNumber
  else if String.eqb ty "boolean" then Some FieldBool
  else if String.eqb ty "timestamp" || String.eqb ty "timestamp_epoch_ms"
          || String.eqb ty "timestamp_epoch_s" then Some FieldTime
  else None.

Definition isNull (c : Cell) : bool :=
  match c with CNull => true | _ => false end.
Definition isNumberCell (c : Cell) : bool :=
  match c with CNumber _ => true | _ => false end.
Definition isBoolCell (c : Cell) : bool :=
  match c with CBool _ => true | _ => false end.

(** Modelled from the spec: the inferred type of a column, the narrowest
    common type of its non-null values (all numbers, all booleans,
    string otherwise), and no type when all its values are Null. *)
Definition inferType (cells : list Cell) : FieldType :=
  let present := filter (fun c => negb (isNull c)) cells in
  match present with
  | [] => FieldUntyped
  | _ :: _ =>
      if forallb isNumberCell present then FieldNumber
      else if forallb isBoolCell present then FieldBool
      else FieldString
  end.

(** *** Coercion to a declared type *)

Definition isNumeral (s : string) : bool :=
  match scanNumber s with
  | Some (_, EmptyString) => true
  | _ => false
  end.

Definition isInteger (s : string) : bool :=
  isNumeral s &&
  allDigits (if isNegative s then dropString 1 s else s).

Definition integerValue (s : string) : Z :=
  if isNegative s then (- digitsValue (dropString 1 s) 0)%Z else digitsValue s 0.

(** The integer a number, or a text that is a number, stands for. A
    numeral with a fraction or an exponent is not read as an integer
    here. *)
Definition integerOf (c : Cell) : option Z :=
  match c with
  | CNumber (Numeral lexeme) =>
      if isInteger lexeme then Some (integerValue lexeme) else None
  | CString s => if isInteger s then Some (integerValue s) else None
  | _ => None
  end.

(** Modelled from the spec: the conversion of a value to the type a
    ColumnSpec declares. [string] renders a scalar as text; [number]
    reads a number, and text that is not one becomes Null; the two epoch
    types read milliseconds, or seconds, since the epoch; any value that
    cannot be converted becomes Null. The parsing of a date-time text
    under [timestamp] needs a calendar, which is left out: the cell is
    Null. A nested array or object where a scalar is declared is no
    cell at all: [None], which the assembler reports as its
    FrameBuildError. *)
Definition coerce (ty : string) (c : Cell) : option Cell :=
  match c with
  | CNested _ => None
  | CNull => Some CNull
  | _ =>
      if String.eqb ty "string" then
        match c with
        | CBool true => Some (CString "true")
        | CBool false => Some (CString "false")
        | CNumber f => Some (CString (FormatFloat f))
        | CString s => Some c
        | _ => Some CNull
        end
      else if String.eqb ty "number" then
        match c with
        | CNumber _ => Some c
        | CString s => if isNumeral s then Some (CNumber (numOf s)) else Some CNull
        | _ => Some CNull
        end
      else if String.eqb ty "boolean" then
        match c with
        | CBool _ => Some c
        | _ => Some CNull
        end
      else if String.eqb ty "timestamp_epoch_ms" then
        match integerOf c with
        | Some z => Some (CTime z)
        | None => Some CNull
        end
      else if String.eqb ty "timestamp_epoch_s" then
        match integerOf c with
        | Some z => Some (CTime (1000 * z))
        | None => Some CNull
        end
      else if String.eqb ty "timestamp" then
        match c with
        | CTime _ => Some c
        | _ => Some CNull
        end
      else Some c
  end.

Fixpoint coerceAll (ty : string) (cells : list Cell) : option (list Cell) :=
  match cells with
  | [] => Some []
  | c :: cells' =>
      match coerce ty c, coerceAll ty cells' with
      | Some c', Some cs => Some (c' :: cs)
      | _, _ => None
      end
  end.

(** *** The frame assembler *)

Definition FrameBuildError : error :=
  errors.New "FrameBuildError: rows cannot be reconciled into one rectangular schema".

(** Modelled from the spec: the ColumnSpec of a column is the last one
    that declares its name, a later one overriding an earlier one. *)
Definition specFor (name : string) (columns : list gframer.ColumnSelector)
  : option gframer.ColumnSelector :=
  find (fun c => String.eqb (specName c) name) (rev columns).

(** Modelled from the spec: one column of the frame. The declared type
    wins and its values are converted to it; otherwise the type is
    inferred and the values are kept. *)
Definition buildField (rows : list GoValue) (columns : list gframer.ColumnSelector)
  (name : string) : option Field :=
  let cells := map (cellAt name) rows in
  let inferred :=
    {| fieldName := name; fieldLabels := []; fieldType := inferType cells;
       fieldValues := cells |} in
  match specFor name columns with
  | Some spec =>
      match declaredType (gframer.Type_ spec) with
      | Some ft =>
          match coerceAll (gframer.Type_ spec) cells with
          | Some cs =>
              Some {| fieldName := name; fieldLabels := []; fieldType := ft;
                      fieldValues := cs |}
          | None => None
          end
      | None => Some inferred
      end
  | None => Some inferred
  end.

Fixpoint allSome {A : Type} (l : list (option A)) : option (list A) :=
  match l with
  | [] => Some []
  | Some a :: l' =>
      match allSome l' with
      | Some r => Some (a :: r)
      | None => None
      end
  | None :: _ => None
  end.

(** Modelled from the spec: an override re-types the column its
    selector names, and leaves the other columns, the column order and
    the row count as they are. *)
Definition applyOverride (fields : list Field) (o : gframer.ColumnSelector)
  : option (list Field) :=
  match declaredType (gframer.Type_ o) with
  | None => Some fields
  | Some ft =>
      allSome
        (map (fun f =>
                if String.eqb (fieldName f) (gframer.Selector o) then
                  match coerceAll (gframer.Type_ o) (fieldValues f) with
                  | Some cs =>
                      Some {| fieldName := fieldName f; fieldLabels := fieldLabels f;
                              fieldType := ft; fieldValues := cs |}
                  | None => None
                  end
                else Some f)
             fields)
  end.

Fixpoint applyOverrides (fields : list Field) (overrides : list gframer.ColumnSelector)
  : option (list Field) :=
  match overrides with
  | [] => Some fields
  | o :: overrides' =>
      match applyOverride fields o with
      | Some fields' => applyOverrides fields' overrides'
      | None => None
      end
  end.

(** Modelled from the spec: [gframer.ToDataFrame], the Frame Assembler.
    The columns are the declared ones, in declared order, or the union
    of the keys of all rows in first-seen order; the type of a column is
    the declared one, or the narrowest common type of its non-null
    values; a missing value is Null; a nested value under a declared
    scalar type fails the build; the overrides then re-type the columns
    they name. *)
Definition ToDataFrame (input : GoValue) (options : gframer.FramerOptions)
  : option Frame * option error :=
  let rows := rowsOf input in
  let names :=
    match gframer.Columns options with
    | [] => inferredNames rows
    | _ :: _ => addNew [] (map specName (gframer.Columns options))
    end in
  match allSome (map (buildField rows (gframer.Columns options)) names) with
  | None => (None, Some FrameBuildError)
  | Some fields =>
      match applyOverrides fields (gframer.OverrideColumns options) with
      | None => (None, Some FrameBuildError)
      | Some fields' =>
          (Some {| frameName := gframer.FrameName options; frameFields := fields' |},
           None)
      end
  end.

(** *** The time series schema and the reshaper *)

Definition isTimeField (f : Field) : bool := FieldType_eqb (fieldType f) FieldTime.
Definition isValueField (f : Field) : bool := FieldType_eqb (fieldType f) FieldNumber.
Definition isLabelField (f : Field) : bool :=
  FieldType_eqb (fieldType f) FieldString || FieldType_eqb (fieldType f) FieldBool.

(** Modelled from the spec: the shape of a frame. Long is a time column
    plus value columns and label columns; wide is a time column plus
    value columns only; anything else is no time series. *)
Definition TimeSeriesSchemaType (f : Frame) : data.TimeSeriesType :=
  if existsb isTimeField (frameFields f) && existsb isValueField (frameFields f) then
    if existsb isLabelField (frameFields f) then data.TimeSeriesTypeLong
    else data.TimeSeriesTypeWide
  else data.TimeSeriesTypeNot.

Definition ReshapeError : error :=
  errors.New "ReshapeError: no usable time column".

Fixpoint timesOf (cells : list Cell) : option (list Z) :=
  match cells with
  | [] => Some []
  | CTime ms :: cells' =>
      match timesOf cells' with
      | Some r => Some (ms :: r)
      | None => None
      end
  | _ :: _ => None
  end.

(** Insertion into an ascending list without duplicates. *)
Fixpoint insertTime (t : Z) (l : list Z) : list Z :=
  match l with
  | [] => [t]
  | u :: l' =>
      if Z.ltb t u then t :: l
      else if Z.eqb t u then l
      else u :: insertTime t l'
  end.

Definition distinctTimes (l : list Z) : list Z :=
  fold_left (fun acc t => insertTime t acc) l [].

Definition labelText (c : Cell) : string :=
  match c with
  | CString s => s
  | CBool true => "true"
  | CBool false => "false"
  | _ => EmptyString
  end.

Definition Labels : Type := list (string * string).

Fixpoint Labels_eqb (a b : Labels) : bool :=
  match a, b with
  | [], [] => true
  | (k, v) :: a', (k', v') :: b' =>
      String.eqb k k' && String.eqb v v' && Labels_eqb a' b'
  | _, _ => false
  end.

(** The labels of row [i]: the text of each label column there. *)
Definition labelsAt (labelFields : list Field) (i : nat) : Labels :=
  map (fun f => (fieldName f, labelText (nth i (fieldValues f) CNull))) labelFields.

Fixpoint distinctLabels (seen : list Labels) (l : list Labels) : list Labels :=
  match l with
  | [] => seen
  | x :: l' =>
      if existsb (Labels_eqb x) seen then distinctLabels seen l'
      else distinctLabels (seen ++ [x]) l'
  end.

(** The value of [valueField] in the first row that has time [t] and
    labels [series]; Null when there is none. *)
Definition wideCell (times : list Z) (rowLabels : list Labels)
  (valueField : Field) (series : Labels) (t : Z) : Cell :=
  match
    find (fun i => Z.eqb (nth i times 0%Z) t && Labels_eqb (nth i rowLabels []) series)
         (seq 0 (length times))
  with
  | Some i => nth i (fieldValues valueField) CNull
  | None => CNull
  end.

(** Modelled from the spec: [data.LongToWide], the Time Series
    Reshaper. One row per distinct time, ascending; one column per value
    column and distinct combination of labels; Null where no row
    matches. It fails when no time column is usable. *)
Definition LongToWide (f : Frame) : option Frame * option error :=
  match find isTimeField (frameFields f) with
  | None => (None, Some ReshapeError)
  | Some timeField =>
      match timesOf (fieldValues timeField) with
      | None => (None, Some ReshapeError)
      | Some times =>
          let labelFields := filter isLabelField (frameFields f) in
          let valueFields := filter isValueField (frameFields f) in
          let rowLabels := map (labelsAt labelFields) (seq 0 (length times)) in
          let ts := distinctTimes times in
          let series := distinctLabels [] rowLabels in
          let timeColumn :=
            {| fieldName := fieldName timeField; fieldLabels := [];
               fieldType := FieldTime; fieldValues := map CTime ts |} in
          let valueColumns :=
            flat_map
              (fun v =>
                 map (fun s =>
                        {| fieldName := fieldName v; fieldLabels := s;
                           fieldType := FieldNumber;
                           fieldValues := map (wideCell times rowLabels v s) ts |})
                     series)
              valueFields in
          (Some {| frameName := frameName f;
                   frameFields := timeColumn :: valueColumns |},
           None)
      end
  end.

#[export] Instance dataLib : data.Lib := {|
  data.Frame := Frame;
  data.TimeSeriesSchemaType := TimeSeriesSchemaType;
  data.LongToWide := LongToWide
|}.

#[export] Instance gframerLib : @gframer.Lib dataLib := {|
  gframer.ToDataFrame := ToDataFrame
|}.

End Reference.


(* ================================================================== *)
(** * Vocabulary of the properties *)
(* ================================================================== *)

Module props.

Import jsonframer.

(** [FramerOptions{}]: every field at its zero value. *)
Definition zeroOptions : FramerOptions :=
  {| FramerType_ := EmptyString; SQLite3Query := EmptyString;
     FrameName := EmptyString; RootSelector := EmptyString;
     Columns := []; OverrideColumns := []; FrameFormat_ := EmptyString |}.

(** [ColumnSelector{Selector: sel, Alias: alias, Type: ty}] *)
Definition column (sel alias ty : string) : ColumnSelector :=
  {| Selector := sel; Alias := alias; Type_ := ty; TimeFormat := EmptyString |}.

Definition withFramerType (o : FramerOptions) (t : FramerType) : FramerOptions :=
  {| FramerType_ := t; SQLite3Query := SQLite3Query o; FrameName := FrameName o;
     RootSelector := RootSelector o; Columns := Columns o;
     OverrideColumns := OverrideColumns o; FrameFormat_ := FrameFormat_ o |}.

Definition withRootSelector (o : FramerOptions) (sel : string) : FramerOptions :=
  {| FramerType_ := FramerType_ o; SQLite3Query := SQLite3Query o;
     FrameName := FrameName o; RootSelector := sel; Columns := Columns o;
     OverrideColumns := OverrideColumns o; FrameFormat_ := FrameFormat_ o |}.

Definition withColumns (o : FramerOptions) (cs : list ColumnSelector) : FramerOptions :=
  {| FramerType_ := FramerType_ o; SQLite3Query := SQLite3Query o;
     FrameName := FrameName o; RootSelector := RootSelector o; Columns := cs;
     OverrideColumns := OverrideColumns o; FrameFormat_ := FrameFormat_ o |}.

Definition withOverrides (o : FramerOptions) (cs : list ColumnSelector) : FramerOptions :=
  {| FramerType_ := FramerType_ o; SQLite3Query := SQLite3Query o;
     FrameName := FrameName o; RootSelector := RootSelector o; Columns := Columns o;
     OverrideColumns := cs; FrameFormat_ := FrameFormat_ o |}.

Definition withFrameFormat (o : FramerOptions) (f : FrameFormat) : FramerOptions :=
  {| FramerType_ := FramerType_ o; SQLite3Query := SQLite3Query o;
     FrameName := FrameName o; RootSelector := RootSelector o; Columns := Columns o;
     OverrideColumns := OverrideColumns o; FrameFormat_ := f |}.

(** A ColumnSpec with its type and time layout erased. *)
Definition untyped (c : ColumnSelector) : ColumnSelector :=
  {| Selector := Selector c; Alias := Alias c; Type_ := EmptyString;
     TimeFormat := EmptyString |}.

Section Vocabulary.
Context `{GJ : gjson.Lib} `{JS : json.Lib} `{JA : jsonata.Lib}
        `{DA : data.Lib} `{GF : @gframer.Lib DA} `{SQ : SQLite3}.

(** The step of the loop over the columns (lines 190-194): one store
    into the row. *)
Definition store (raw : string) (oi : gomap.t GoValue) (col : ColumnSelector)
  : gomap.t GoValue :=
  gomap.set oi (columnName col)
    (convertFieldValueType (gjson.Value (gjson.Get raw (Selector col))) col).

(** The text the frames are built from: the resolved root, projected to
    the declared columns (lines 65-72 of [ToFrames], 139-146 of
    [ToFrame]). *)
Definition rowSource (jsonString : string) (options : FramerOptions)
  : Outcome (string * option error) :=
  ' (outString, err) <- GetRootData jsonString (RootSelector options) ;;
  match err with
  | Some _ => Returns (EmptyString, err)
  | None => Returns (getColumnValuesFromResponseString outString (Columns options))
  end.

(** What one row set contributes to the collection where [ToFrames]
    reshapes (lines 90-103 and 107-120): the error of the assembler or
    of the reshaper and no frame; or the frame, reshaped when the format
    is time series and the frame is long; or nothing for a nil frame. *)
Definition innerFrame (options : FramerOptions) (raw : string)
  : Frames * option error :=
  match getFrameFromResponseString raw options with
  | (_, Some e) => ([], Some e)
  | (None, None) => ([], None)
  | (Some f, None) =>
      if wantsWide options f then
        match data.LongToWide f with
        | (_, Some e) => ([], Some e)
        | (frame, None) => ([frame], None)
        end
      else ([Some f], None)
  end.

(** The frames of a list of row sets that all build: [None] as soon as
    one fails. *)
Fixpoint builtFrames (options : FramerOptions) (raws : list string)
  : option Frames :=
  match raws with
  | [] => Some []
  | raw :: raws' =>
      match innerFrame options raw, builtFrames options raws' with
      | (fs, None), Some rest => Some (fs ++ rest)
      | _, _ => None
      end
  end.

(** The preconditions shared by the properties of [ToFrames] past its
    first lines: the text is accepted, the framer is not the SQLite3
    one, and root resolution and projection return [text] without an
    error. *)
Definition reaches (jsonString : string) (options : FramerOptions) (text : string)
  : Prop :=
  validateJson jsonString = None /\
  String.eqb (FramerType_ options) "sqlite3" = false /\
  rowSource jsonString options = Returns (text, None).

(** Multi-frame mode: the text is an array whose members are all
    arrays. *)
Definition multiFrame (text : string) : bool :=
  gjson.IsArray (gjson.Parse text) &&
  negb (nonArrayItemsFound (gjson.Array (gjson.Parse text))).

End Vocabulary.

End props.


(** [run] settles a closed equation by evaluation. *)
Ltac run := vm_compute; reflexivity.


(* ================================================================== *)
(** * Properties of the framer, for every implementation of the
      imported packages *)
(* ================================================================== *)

Section Pipeline.
Import jsonframer props.
Context `{GJ : gjson.Lib} `{JS : json.Lib} `{JA : jsonata.Lib}
        `{DA : data.Lib} `{GF : @gframer.Lib DA} `{SQ : SQLite3}.

(** ** Validation *)

Lemma validateJson_blank (s : string) :
  strings.TrimSpace s = EmptyString ->
  validateJson s = Some (errors.New "empty json received").
Proof. intros H. unfold validateJson. rewrite H. reflexivity. Qed.

Lemma validateJson_invalid (s : string) :
  isEmpty (strings.TrimSpace s) = false ->
  gjson.Valid s = false ->
  validateJson s = Some (errors.New "invalid json response received").
Proof. intros H1 H2. unfold validateJson. rewrite H1, H2. reflexivity. Qed.

Lemma validateJson_accepts (s : string) :
  validateJson s = None <->
  isEmpty (strings.TrimSpace s) = false /\ gjson.Valid s = true.
Proof.
  unfold validateJson.
  destruct (isEmpty (strings.TrimSpace s)); [split; [discriminate | intros [H _]; discriminate] |].
  destruct (gjson.Valid s); simpl; split; auto; try discriminate.
  intros [_ H]; discriminate.
Qed.

Lemma ToFrames_rejected (s : string) (o : FramerOptions) (e : error) :
  validateJson s = Some e -> ToFrames s o = Returns ([], Some e).
Proof. intros H. unfold ToFrames. rewrite H. reflexivity. Qed.

Lemma ToFrame_rejected (s : string) (o : FramerOptions) (e : error) :
  validateJson s = Some e -> ToFrame s o = Returns (None, Some e).
Proof. intros H. unfold ToFrame. rewrite H. reflexivity. Qed.

(** ** The pipeline of [ToFrames] past root resolution and projection *)

Lemma rowSource_inv (s : string) (o : FramerOptions) (text : string) :
  rowSource s o = Returns (text, None) ->
  exists out,
    GetRootData s (RootSelector o) = Returns (out, None) /\
    getColumnValuesFromResponseString out (Columns o) = (text, None).
Proof.
  unfold rowSource. intros H.
  destruct (GetRootData s (RootSelector o)) as [[out [e|]]|m]; simpl in H;
    try discriminate.
  exists out. split; [reflexivity|]. now inversion H.
Qed.

Lemma ToFrames_reaches (s : string) (o : FramerOptions) (text : string) :
  reaches s o text ->
  ToFrames s o =
  Returns
    (if gjson.IsArray (gjson.Parse text) then
       if nonArrayItemsFound (gjson.Array (gjson.Parse text)) then
         match getFrameFromResponseString text o with
         | (_, Some e) => ([], Some e)
         | (frame, None) => ([frame], None)
         end
       else framesLoop o (gjson.Array (gjson.Parse text)) []
     else innerFrame o text).
Proof.
  intros (Hv & Ht & Hs).
  destruct (rowSource_inv _ _ _ Hs) as (out & Hroot & Hcols).
  unfold ToFrames. rewrite Hv, Ht, Hroot. simpl. rewrite Hcols.
  destruct (gjson.IsArray (gjson.Parse text)).
  - destruct (nonArrayItemsFound (gjson.Array (gjson.Parse text))); [|reflexivity].
    destruct (getFrameFromResponseString text o) as [frame [e|]]; reflexivity.
  - unfold innerFrame.
    destruct (getFrameFromResponseString text o) as [[f|] [e|]]; try reflexivity.
    destruct (wantsWide o f); [|reflexivity].
    destruct (data.LongToWide f) as [frame [e|]]; reflexivity.
Qed.

(** One turn of the loop of lines 89-104. *)
Lemma framesLoop_step (o : FramerOptions) (v : gjson.Result)
  (items : list gjson.Result) (frames : Frames) :
  framesLoop o (v :: items) frames =
  match innerFrame o (gjson.Raw v) with
  | (_, Some e) => (frames, Some e)
  | (fs, None) => framesLoop o items (frames ++ fs)
  end.
Proof.
  simpl. unfold innerFrame.
  destruct (getFrameFromResponseString (gjson.Raw v) o) as [[f|] [e|]];
    try reflexivity.
  - destruct (wantsWide o f); [|reflexivity].
    destruct (data.LongToWide f) as [frame [e|]]; reflexivity.
  - now rewrite app_nil_r.
Qed.

Lemma framesLoop_built (o : FramerOptions) (items : list gjson.Result) :
  forall (frames fs : Frames),
    builtFrames o (map gjson.Raw items) = Some fs ->
    framesLoop o items frames = (frames ++ fs, None).
Proof.
  induction items as [|v items IH]; intros frames fs H.
  - simpl in H. inversion H. simpl. now rewrite app_nil_r.
  - rewrite framesLoop_step. simpl in H.
    destruct (innerFrame o (gjson.Raw v)) as [fs1 [e|]]; [discriminate|].
    destruct (builtFrames o (map gjson.Raw items)) as [rest|] eqn:Hrest;
      [|discriminate].
    inversion H; subst. rewrite (IH _ rest eq_refl). now rewrite app_assoc.
Qed.

Lemma framesLoop_first_error (o : FramerOptions) (before : list gjson.Result) :
  forall (v : gjson.Result) (after : list gjson.Result) (frames fs : Frames) (e : error),
    builtFrames o (map gjson.Raw before) = Some fs ->
    snd (innerFrame o (gjson.Raw v)) = Some e ->
    framesLoop o (before ++ v :: after) frames = (frames ++ fs, Some e).
Proof.
  induction before as [|b before IH]; intros v after frames fs e Hb He.
  - simpl in Hb. inversion Hb. rewrite app_nil_r. simpl app.
    rewrite framesLoop_step.
    destruct (innerFrame o (gjson.Raw v)) as [fs1 [e1|]]; simpl in He;
      [now inversion He | discriminate].
  - simpl app. rewrite framesLoop_step. simpl in Hb.
    destruct (innerFrame o (gjson.Raw b)) as [fs1 [e1|]]; [discriminate|].
    destruct (builtFrames o (map gjson.Raw before)) as [rest|] eqn:Hrest;
      [|discriminate].
    inversion Hb; subst.
    rewrite (IH v after (frames ++ fs1) rest e eq_refl He).
    now rewrite app_assoc.
Qed.

Lemma builtFrames_all (o : FramerOptions) (raws : list string) :
  (forall raw, In raw raws -> exists f, innerFrame o raw = ([f], None)) ->
  exists fs,
    builtFrames o raws = Some fs /\
    length fs = length raws /\
    Forall2 (fun raw f => innerFrame o raw = ([f], None)) raws fs.
Proof.
  induction raws as [|raw raws IH]; intros H.
  - exists []. simpl. repeat split; constructor.
  - destruct (H raw (or_introl eq_refl)) as (f & Hf).
    destruct IH as (fs & Hb & Hl & Hall).
    { intros r Hr. apply H. now right. }
    exists (f :: fs). simpl. rewrite Hf, Hb. simpl.
    repeat split; [now rewrite Hl | constructor; assumption].
Qed.

End Pipeline.


(* ================================================================== *)
(** * The properties, claim by claim *)
(* ================================================================== *)

(** First the statements that hold for every implementation of the
    imported packages; then, with the reference implementations, the
    statements about concrete texts. *)

(** ** C10: the SQLite3 framer has no multi-frame support *)

Section SQLite3Framer.
Import jsonframer props.
Context `{GJ : gjson.Lib} `{JS : json.Lib} `{JA : jsonata.Lib}
        `{DA : data.Lib} `{GF : @gframer.Lib DA} `{SQ : SQLite3}.

(** C10. For a text that is not blank and is valid JSON, [ToFrames] with
    the framer type [sqlite3] returns the error "multi frame support not
    implemented for sqlite3 parser" and no frame, whatever the other
    options; [ToFrame] with the same options accepts the framer type: it
    runs the SQLite3 query and returns the frame built from its
    output, or the error of the query. *)
Theorem sqlite3_has_no_multi_frame_support (s : string) (o : FramerOptions) :
  isEmpty (strings.TrimSpace s) = false ->
  gjson.Valid s = true ->
  FramerType_ o = "sqlite3" ->
  ToFrames s o =
    Returns ([], Some (errors.New "multi frame support not implemented for sqlite3 parser"))
  /\
  ToFrame s o =
    Returns
      (match QueryJSONUsingSQLite3 s (SQLite3Query o) (RootSelector o) with
       | (_, Some e) => (None, Some e)
       | (outString, None) => getFrameFromResponseString outString o
       end).
Proof.
  intros Hblank Hvalid Htype.
  assert (Hv : validateJson s = None) by (apply validateJson_accepts; auto).
  unfold ToFrames, ToFrame. rewrite Hv, Htype. simpl. split; [reflexivity|].
  destruct (QueryJSONUsingSQLite3 s (SQLite3Query o) (RootSelector o)) as [out [e|]];
    reflexivity.
Qed.

End SQLite3Framer.

(** ** C1: an error in multi-frame mode *)

Section MultiFrameErrors.
Import jsonframer props.
Context `{GJ : gjson.Lib} `{JS : json.Lib} `{JA : jsonata.Lib}
        `{DA : data.Lib} `{GF : @gframer.Lib DA} `{SQ : SQLite3}.

(** C1, as the code has it. In multi-frame mode (the text the frames are
    built from is an array whose members are all arrays), when the
    members before [v] build and the member [v] fails, with the error of
    the decoder, of the assembler or of the reshaper, the call stops
    there and returns that error together with the frames built from
    the members before [v]; the members after [v] are not looked at. The
    collection returned with the error is empty only when nothing was
    built before the failure. *)
Theorem multi_frame_error_returns_earlier_frames
  (s : string) (o : FramerOptions) (text : string)
  (before : list gjson.Result) (v : gjson.Result) (after : list gjson.Result)
  (fs : Frames) (e : error) :
  reaches s o text ->
  multiFrame text = true ->
  gjson.Array (gjson.Parse text) = before ++ v :: after ->
  builtFrames o (map gjson.Raw before) = Some fs ->
  snd (innerFrame o (gjson.Raw v)) = Some e ->
  ToFrames s o = Returns (fs, Some e).
Proof.
  intros Hr Hm Ha Hb He.
  rewrite (ToFrames_reaches _ _ _ Hr).
  unfold multiFrame in Hm. apply andb_true_iff in Hm as [Harr Hnon].
  apply negb_true_iff in Hnon. rewrite Harr, Hnon, Ha.
  now rewrite (framesLoop_first_error o before v after [] fs e Hb He).
Qed.

End MultiFrameErrors.

(** ** C2: how many frames *)

Section Classification.
Import jsonframer props.
Context `{GJ : gjson.Lib} `{JS : json.Lib} `{JA : jsonata.Lib}
        `{DA : data.Lib} `{GF : @gframer.Lib DA} `{SQ : SQLite3}.

(** C2, as the code has it. [ToFrames] classifies the text that root
    resolution and column projection return, which is the resolved root
    when no column is declared. When every stage succeeds:
    - an array whose members are all arrays gives one frame per member,
      each built (decoded, assembled, reshaped) from the raw text of
      that member alone;
    - an array with a member that is not an array gives exactly one
      entry, the frame built from the whole text;
    - a text that is not an array gives exactly one frame. *)
Theorem frames_per_row_set (s : string) (o : FramerOptions) (text : string) :
  reaches s o text ->
  (Columns o = [] -> GetRootData s (RootSelector o) = Returns (text, None)) /\
  (multiFrame text = true ->
   (forall raw, In raw (map gjson.Raw (gjson.Array (gjson.Parse text))) ->
                exists f, innerFrame o raw = ([f], None)) ->
   exists fs,
     ToFrames s o = Returns (fs, None) /\
     length fs = length (gjson.Array (gjson.Parse text)) /\
     Forall2 (fun raw f => innerFrame o raw = ([f], None))
             (map gjson.Raw (gjson.Array (gjson.Parse text))) fs) /\
  (gjson.IsArray (gjson.Parse text) = true ->
   nonArrayItemsFound (gjson.Array (gjson.Parse text)) = true ->
   forall frame,
     getFrameFromResponseString text o = (frame, None) ->
     ToFrames s o = Returns ([frame], None)) /\
  (gjson.IsArray (gjson.Parse text) = false ->
   forall f,
     innerFrame o text = ([f], None) ->
     ToFrames s o = Returns ([f], None)).
Proof.
  intros Hr. pose proof (ToFrames_reaches _ _ _ Hr) as Heq.
  repeat split.
  - intros Hc. destruct Hr as (_ & _ & Hs).
    destruct (rowSource_inv _ _ _ Hs) as (out & Hroot & Hcols).
    unfold getColumnValuesFromResponseString in Hcols. rewrite Hc in Hcols.
    simpl in Hcols. inversion Hcols; subst. exact Hroot.
  - intros Hm Hall.
    unfold multiFrame in Hm. apply andb_true_iff in Hm as [Harr Hnon].
    apply negb_true_iff in Hnon. rewrite Harr, Hnon in Heq.
    destruct (builtFrames_all o _ Hall) as (fs & Hb & Hl & Hf).
    exists fs. rewrite Heq, (framesLoop_built o _ [] fs Hb).
    repeat split; [| exact Hf]. now rewrite Hl, length_map.
  - intros Harr Hnon frame Hf. now rewrite Heq, Harr, Hnon, Hf.
  - intros Harr f Hf. now rewrite Heq, Harr, Hf.
Qed.

End Classification.

(** ** C3: declared types and projection *)

Section DeclaredTypes.
Import jsonframer props.
Context `{GJ : gjson.Lib} `{JS : json.Lib} `{JA : jsonata.Lib}
        `{DA : data.Lib} `{GF : @gframer.Lib DA} `{SQ : SQLite3}.

Lemma projectRow_untyped (raw : string) (columns : list ColumnSelector) :
  projectRow raw (map untyped columns) = projectRow raw columns.
Proof.
  unfold projectRow. generalize (@gomap.empty GoValue).
  induction columns as [|c columns IH]; intros acc; [reflexivity|].
  simpl. now rewrite IH.
Qed.

Lemma projectRows_untyped (result : gjson.Result) (columns : list ColumnSelector) :
  projectRows result (map untyped columns) = projectRows result columns.
Proof.
  unfold projectRows. rewrite projectRow_untyped.
  assert (Hmap :
    map (fun kv => projectRow (gjson.Raw (snd kv)) (map untyped columns))
        (gjson.ForEach result) =
    map (fun kv => projectRow (gjson.Raw (snd kv)) columns) (gjson.ForEach result)).
  { apply map_ext. intros kv. apply projectRow_untyped. }
  now rewrite Hmap.
Qed.

(** Column projection converts nothing: [convertFieldValueType] returns
    the value it is given, whatever the ColumnSpec; the projected text
    does not depend on the declared types or time layouts; and both
    reach the frame assembler unchanged, in the [Columns] handed to
    it. *)
Lemma projection_ignores_types (text : string) (columns : list ColumnSelector) :
  (forall v c, convertFieldValueType v c = v) /\
  getColumnValuesFromResponseString text (map untyped columns) =
    getColumnValuesFromResponseString text columns /\
  (forall c, gframer.Type_ (toGframerColumn c) = Type_ c /\
             gframer.TimeFormat (toGframerColumn c) = TimeFormat c).
Proof.
  repeat split.
  unfold getColumnValuesFromResponseString.
  now rewrite length_map, projectRows_untyped.
Qed.

End DeclaredTypes.

(** ** C4: a selector that does not compile *)

Section SelectorCompilation.
Import jsonframer props.
Context `{GJ : gjson.Lib} `{JS : json.Lib} `{JA : jsonata.Lib}
        `{DA : data.Lib} `{GF : @gframer.Lib DA} `{SQ : SQLite3}.

(** When the selector is not a path that resolves and the expression
    language does not compile it, [GetRootData] does not return:
    [jsonata.MustCompile] panics, and the panic is the outcome of
    [ToFrames] and of [ToFrame]. The branch that returns
    [ErrInvalidRootSelector] tests for a nil that [MustCompile] never
    returns: the errors [GetRootData] does return are those of decoding,
    evaluation and encoding. *)
Lemma compile_failure_panics (jsonString sel : string) (e : error) :
  isEmpty sel = false ->
  gjson.Exists (gjson.Get jsonString sel) = false ->
  jsonata.Compile sel = inr e ->
  let message := ("could not compile " ++ sel ++ ": " ++ errors.Error e)%string in
  GetRootData jsonString sel = Panics message /\
  (forall o,
     validateJson jsonString = None ->
     String.eqb (FramerType_ o) "sqlite3" = false ->
     RootSelector o = sel ->
     ToFrames jsonString o = Panics message /\
     ToFrame jsonString o = Panics message) /\
  (forall text text' err,
     GetRootData jsonString text = Returns (text', Some err) ->
     exists e',
       err = errors.Join ErrInvalidJSONContent e' \/
       err = errors.Join ErrEvaluatingJSONata e').
Proof.
  intros Hsel Hex Hc message.
  assert (Hroot : GetRootData jsonString sel = Panics message).
  { unfold GetRootData, jsonata.MustCompile. now rewrite Hsel, Hex, Hc. }
  split; [exact Hroot|]. split.
  - intros o Hv Ht Hs. split.
    + unfold ToFrames. rewrite Hv, Ht, Hs, Hroot. reflexivity.
    + unfold ToFrame. rewrite Hv, Ht, Hs, Hroot. reflexivity.
  - intros text text' err. unfold GetRootData, jsonata.MustCompile.
    destruct (isEmpty text); simpl; [discriminate|].
    destruct (gjson.Exists (gjson.Get jsonString text)); [discriminate|].
    destruct (jsonata.Compile text) as [expr|ce]; simpl; [|discriminate].
    destruct (json.Unmarshal jsonString) as [data [ue|]].
    { intros H; inversion H; subst. eexists; left; reflexivity. }
    destruct (jsonata.Eval expr data) as [res [ee|]].
    { intros H; inversion H; subst. eexists; right; reflexivity. }
    destruct (json.Marshal res) as [r2 [me|]]; [|discriminate].
    intros H; inversion H; subst. eexists; left; reflexivity.
Qed.

(** The fast path: a selector that resolves as a literal path returns
    the string form of the result, and neither compiles nor evaluates
    anything; an empty selector returns the text. *)
Lemma GetRootData_literal (jsonString sel : string) :
  isEmpty sel = false ->
  gjson.Exists (gjson.Get jsonString sel) = true ->
  GetRootData jsonString sel =
  Returns (gjson.String (gjson.Get jsonString sel), None).
Proof.
  intros Hsel Hex. unfold GetRootData. now rewrite Hsel, Hex.
Qed.

Lemma GetRootData_empty_selector (jsonString : string) :
  GetRootData jsonString EmptyString = Returns (jsonString, None).
Proof. reflexivity. Qed.

End SelectorCompilation.

(** ** Go maps as key-sorted lists *)

Section GoMaps.

Lemma ascii_compare_lt_trans (a b c : ascii) :
  Ascii.compare a b = Lt -> Ascii.compare b c = Lt -> Ascii.compare a c = Lt.
Proof.
  unfold Ascii.compare. rewrite !N.compare_lt_iff. apply N.lt_trans.
Qed.

Lemma string_lt_trans (a : string) :
  forall b c, gomap.lt a b -> gomap.lt b c -> gomap.lt a c.
Proof.
  unfold gomap.lt.
  induction a as [|x a IH]; intros [|y b] [|z c]; simpl; try discriminate; auto.
  destruct (Ascii.compare x y) eqn:Hxy; try discriminate;
    destruct (Ascii.compare y z) eqn:Hyz; try discriminate; intros H1 H2.
  - apply Ascii.compare_eq_iff in Hxy, Hyz. subst.
    assert (Hzz : Ascii.compare z z = Eq)
      by (unfold Ascii.compare; apply N.compare_refl).
    rewrite Hzz. eapply IH; eassumption.
  - apply Ascii.compare_eq_iff in Hxy. subst. now rewrite Hyz.
  - apply Ascii.compare_eq_iff in Hyz. subst. now rewrite Hxy.
  - now rewrite (ascii_compare_lt_trans _ _ _ Hxy Hyz).
Qed.

Lemma string_gt_lt (a b : string) :
  String.compare a b = Gt -> gomap.lt b a.
Proof.
  unfold gomap.lt. intros H. rewrite String.compare_antisym, H. reflexivity.
Qed.

Lemma string_compare_refl (a : string) : String.compare a a = Eq.
Proof.
  induction a as [|x a IH]; simpl; [reflexivity|].
  assert (Hxx : Ascii.compare x x = Eq)
    by (unfold Ascii.compare; apply N.compare_refl).
  now rewrite Hxx.
Qed.

Lemma string_compare_neq (a b : string) :
  String.compare a b <> Eq -> String.eqb b a = false.
Proof.
  intros H. apply String.eqb_neq. intros ->. apply H.
  apply string_compare_refl.
Qed.

Context {V : Type}.

Lemma gomap_get_set_same (m : gomap.t V) (k : string) (v : V) :
  gomap.get (gomap.set m k v) k = Some v.
Proof.
  induction m as [|[k' v'] m IH]; simpl.
  - now rewrite String.eqb_refl.
  - destruct (String.compare k k') eqn:Hc; simpl.
    + now rewrite String.eqb_refl.
    + now rewrite String.eqb_refl.
    + rewrite String.eqb_sym, string_compare_neq; [exact IH | congruence].
Qed.

Lemma gomap_get_set_other (m : gomap.t V) (k k' : string) (v : V) :
  k <> k' ->
  gomap.get (gomap.set m k' v) k = gomap.get m k.
Proof.
  intros Hne. apply String.eqb_neq in Hne.
  induction m as [|[k2 v2] m IH]; simpl.
  - now rewrite Hne.
  - destruct (String.compare k' k2) eqn:Hc; simpl.
    + apply String.compare_eq_iff in Hc. subst. now rewrite Hne.
    + now rewrite Hne.
    + now rewrite IH.
Qed.

Lemma gomap_keys_set (m : gomap.t V) (k' : string) (v : V) (k : string) :
  In k (gomap.keys (gomap.set m k' v)) <-> k = k' \/ In k (gomap.keys m).
Proof.
  unfold gomap.keys.
  induction m as [|[k2 v2] m IH]; simpl.
  - intuition.
  - destruct (String.compare k' k2) eqn:Hc; simpl.
    + apply String.compare_eq_iff in Hc. subst. intuition.
    + intuition.
    + rewrite IH. intuition.
Qed.

Lemma gomap_set_sorted (m : gomap.t V) (k : string) (v : V) :
  StronglySorted gomap.lt (gomap.keys m) ->
  StronglySorted gomap.lt (gomap.keys (gomap.set m k v)).
Proof.
  induction m as [|[k' v'] m IH]; simpl; intros Hs.
  - constructor; constructor.
  - apply StronglySorted_inv in Hs as [Hs Hall].
    destruct (String.compare k k') eqn:Hc; simpl.
    + apply String.compare_eq_iff in Hc. subst. now constructor.
    + constructor; [constructor; assumption|].
      constructor; [exact Hc|].
      eapply Forall_impl; [|exact Hall].
      intros x Hx. eapply string_lt_trans; [exact Hc | exact Hx].
    + constructor; [now apply IH|].
      apply Forall_forall. intros x Hx.
      apply (gomap_keys_set m k v x) in Hx. destruct Hx as [->|Hx].
      * now apply string_gt_lt.
      * rewrite Forall_forall in Hall. now apply Hall.
Qed.

End GoMaps.

(** ** C5 and C8: the rows of the projection *)

Section Projection.
Import jsonframer props.
Context `{GJ : gjson.Lib} `{JS : json.Lib} `{JA : jsonata.Lib}
        `{DA : data.Lib} `{GF : @gframer.Lib DA} `{SQ : SQLite3}.

Lemma projectRow_fold (raw : string) (columns : list ColumnSelector) :
  projectRow raw columns = fold_left (store raw) columns gomap.empty.
Proof. reflexivity. Qed.

Lemma store_fold_sorted (raw : string) (columns : list ColumnSelector) :
  forall oi,
    StronglySorted gomap.lt (gomap.keys oi) ->
    StronglySorted gomap.lt (gomap.keys (fold_left (store raw) columns oi)).
Proof.
  induction columns as [|c columns IH]; intros oi Hs; simpl; [assumption|].
  apply IH. now apply gomap_set_sorted.
Qed.

Lemma store_fold_keys (raw : string) (columns : list ColumnSelector) :
  forall oi k,
    In k (gomap.keys (fold_left (store raw) columns oi)) <->
    In k (gomap.keys oi) \/ In k (map columnName columns).
Proof.
  induction columns as [|c columns IH]; intros oi k; simpl.
  - intuition.
  - rewrite IH. unfold store. rewrite gomap_keys_set. intuition.
Qed.

Lemma store_fold_get_other (raw : string) (columns : list ColumnSelector) (k : string) :
  (forall d, In d columns -> columnName d <> k) ->
  forall oi, gomap.get (fold_left (store raw) columns oi) k = gomap.get oi k.
Proof.
  induction columns as [|c columns IH]; intros Hne oi; simpl; [reflexivity|].
  rewrite IH by (intros d Hd; apply Hne; now right).
  unfold store. apply gomap_get_set_other.
  intros Heq. apply (Hne c (or_introl eq_refl)). now symmetry.
Qed.

Lemma projectRows_rows (result : gjson.Result) (columns : list ColumnSelector) :
  forall row, In row (projectRows result columns) ->
              exists raw, row = projectRow raw columns.
Proof.
  intros row. unfold projectRows.
  destruct (gjson.IsArray result); simpl.
  - intros Hin. apply in_map_iff in Hin as (kv & <- & _).
    now eexists.
  - destruct (gjson.IsObject result); simpl; [|contradiction].
    intros [<-|[]]. now eexists.
Qed.

Lemma absent_is_nil (r : gjson.Result) :
  gjson.Exists r = false -> gjson.Value r = VNil.
Proof.
  unfold gjson.Exists, gjson.Value. intros H.
  apply orb_false_iff in H as [H _]. apply negb_false_iff in H.
  destruct (gjson.Type_ r); simpl in H; try discriminate. reflexivity.
Qed.

(** A row of the projection is a Go map: it has exactly the declared
    names as keys (the alias, or the selector when the alias is empty),
    each once, in ascending order, whatever the order of the
    ColumnSpecs. The frame builder hands the ColumnSpecs to the
    assembler in declared order. *)
Lemma projected_rows_keys
  (result : gjson.Result) (columns : list ColumnSelector) (o : FramerOptions)
  (text : string) :
  Forall
    (fun row =>
       StronglySorted gomap.lt (gomap.keys row) /\
       (forall k, In k (gomap.keys row) <-> In k (map columnName columns)))
    (projectRows result columns) /\
  getFrameFromResponseString text o =
    match json.Unmarshal text with
    | (_, Some err) =>
        (None, Some (fmt.Errorf "error while un-marshaling response. "
                                (errors.Error err)))
    | (out, None) =>
        gframer.ToDataFrame out
          {| gframer.FrameName := FrameName o;
             gframer.Columns := map toGframerColumn (Columns o);
             gframer.OverrideColumns := map toGframerColumn (OverrideColumns o) |}
    end.
Proof.
  split.
  - apply Forall_forall. intros row Hin.
    destruct (projectRows_rows _ _ _ Hin) as (raw & ->).
    rewrite projectRow_fold. split.
    + apply store_fold_sorted. constructor.
    + intros k. rewrite store_fold_keys. simpl. intuition.
  - unfold getFrameFromResponseString.
    destruct (json.Unmarshal text) as [out [err|]]; reflexivity.
Qed.

(** The row keeps, under the name of a column, the value at the selector
    of the last column of that name. *)
Lemma projectRow_get (raw : string) (pre : list ColumnSelector)
  (c : ColumnSelector) (post : list ColumnSelector) :
  (forall d, In d post -> columnName d <> columnName c) ->
  gomap.get (projectRow raw (pre ++ c :: post)) (columnName c) =
  Some (gjson.Value (gjson.Get raw (Selector c))).
Proof.
  intros Hne. rewrite projectRow_fold, fold_left_app. simpl.
  rewrite store_fold_get_other by exact Hne.
  unfold store. apply gomap_get_set_same.
Qed.

End Projection.

(** ** C6: where frames are reshaped *)

Section Reshaping.
Import jsonframer props.
Context `{GJ : gjson.Lib} `{JS : json.Lib} `{JA : jsonata.Lib}
        `{DA : data.Lib} `{GF : @gframer.Lib DA} `{SQ : SQLite3}.

Lemma wantsWide_iff (o : FramerOptions) (f : data.Frame) :
  wantsWide o f = true <->
  FrameFormat_ o = FrameFormatTimeSeries /\
  data.TimeSeriesSchemaType f = data.TimeSeriesTypeLong.
Proof.
  unfold wantsWide. rewrite andb_true_iff, String.eqb_eq.
  destruct (data.TimeSeriesSchemaType f); simpl; intuition discriminate.
Qed.

Lemma ToFrame_ignores_format (s : string) (o : FramerOptions) (fmt : FrameFormat) :
  ToFrame s (withFrameFormat o fmt) = ToFrame s o.
Proof. reflexivity. Qed.


End Reshaping.


(* ================================================================== *)
(** * Further properties of the framer, for every implementation of
      the imported packages *)
(* ================================================================== *)

(** ** When a call panics *)

Section Panics.
Import jsonframer props.
Context `{GJ : gjson.Lib} `{JS : json.Lib} `{JA : jsonata.Lib}
        `{DA : data.Lib} `{GF : @gframer.Lib DA} `{SQ : SQLite3}.

Lemma GetRootData_panics_iff (s sel : string) :
  panicked (GetRootData s sel) = true <->
  isEmpty sel = false /\
  gjson.Exists (gjson.Get s sel) = false /\
  exists e, jsonata.Compile sel = inr e.
Proof.
  unfold GetRootData, jsonata.MustCompile.
  destruct (isEmpty sel); simpl.
  { split; [discriminate | intros (H & _); discriminate]. }
  destruct (gjson.Exists (gjson.Get s sel)); simpl.
  { split; [discriminate | intros (_ & H & _); discriminate]. }
  destruct (jsonata.Compile sel) as [expr|e]; simpl.
  - assert (Hret : panicked
      (let (data, err) := json.Unmarshal s in
       match err with
       | Some err0 => Returns (EmptyString, Some (errors.Join ErrInvalidJSONContent err0))
       | None =>
           let (res, err0) := jsonata.Eval expr data in
           match err0 with
           | Some err1 => Returns (EmptyString, Some (errors.Join ErrEvaluatingJSONata err1))
           | None =>
               let (r2, err1) := json.Marshal res in
               match err1 with
               | Some err2 =>
                   Returns (EmptyString, Some (errors.Join ErrInvalidJSONContent err2))
               | None => Returns (r2, None)
               end
           end
       end) = false).
    { destruct (json.Unmarshal s) as [data [ue|]]; [reflexivity|].
      destruct (jsonata.Eval expr data) as [res [ee|]]; [reflexivity|].
      destruct (json.Marshal res) as [r2 [me|]]; reflexivity. }
    rewrite Hret. split; [discriminate | intros (_ & _ & e & H); discriminate].
  - split; [intros _; repeat split; now exists e | reflexivity].
Qed.


End Panics.

(** ** The collection [ToFrames] returns *)

Section Collections.
Import jsonframer props.
Context `{GJ : gjson.Lib} `{JS : json.Lib} `{JA : jsonata.Lib}
        `{DA : data.Lib} `{GF : @gframer.Lib DA} `{SQ : SQLite3}.

(** X2. [ToFrames] returns frames together with an error on one path
    only: the loop over the members of an array of arrays. On every
    other path that fails (validation, the SQLite3 framer, root
    resolution, projection, the single frame of an array with a member
    that is not an array, the frame of a root that is not an array and
    its reshaping) the collection returned with the error is empty. *)
Theorem error_with_frames_only_in_multi_frame_mode
  (s : string) (o : FramerOptions) (fs : Frames) (e : error) :
  ToFrames s o = Returns (fs, Some e) ->
  fs <> [] ->
  exists text, reaches s o text /\ multiFrame text = true.
Proof.
  intros H Hne. unfold ToFrames in H.
  destruct (validateJson s) as [ve|] eqn:Hv.
  { inversion H; subst. now elim Hne. }
  destruct (String.eqb (FramerType_ o) "sqlite3") eqn:Ht.
  { inversion H; subst. now elim Hne. }
  destruct (GetRootData s (RootSelector o)) as [[out [e1|]]|m] eqn:Hroot;
    simpl in H; try discriminate.
  { inversion H; subst. now elim Hne. }
  destruct (getColumnValuesFromResponseString out (Columns o)) as [text [e2|]] eqn:Hcols.
  { inversion H; subst. now elim Hne. }
  exists text. split.
  { repeat split; try assumption.
    unfold rowSource. rewrite Hroot. simpl. now rewrite Hcols. }
  unfold multiFrame. cbv zeta in H.
  destruct (gjson.IsArray (gjson.Parse text)).
  - destruct (nonArrayItemsFound (gjson.Array (gjson.Parse text))); [|reflexivity].
    destruct (getFrameFromResponseString text o) as [frame [e3|]];
      inversion H; subst. now elim Hne.
  - destruct (getFrameFromResponseString text o) as [[f|] [e3|]];
      try (inversion H; subst; now elim Hne).
    destruct (wantsWide o f); [|discriminate].
    destruct (data.LongToWide f) as [frame [e4|]]; inversion H; subst.
    now elim Hne.
Qed.

(** The loop only appends: what it returns starts with the frames it
    was given. With a nil error, every member built. *)
Lemma framesLoop_success (o : FramerOptions) (items : list gjson.Result) :
  forall (frames fs' : Frames),
    framesLoop o items frames = (fs', None) ->
    exists fs,
      builtFrames o (map gjson.Raw items) = Some fs /\ fs' = frames ++ fs.
Proof.
  induction items as [|v items IH]; intros frames fs' H.
  - simpl in H. inversion H; subst. exists []. split; [reflexivity|].
    now rewrite app_nil_r.
  - rewrite framesLoop_step in H. simpl.
    destruct (innerFrame o (gjson.Raw v)) as [fs1 [e|]]; [discriminate|].
    destruct (IH _ _ H) as (rest & Hb & ->).
    exists (fs1 ++ rest). rewrite Hb. split; [reflexivity|].
    now rewrite app_assoc.
Qed.

(** With an error, one member failed after the members before it
    built. *)
Lemma framesLoop_failure (o : FramerOptions) (items : list gjson.Result) :
  forall (frames fs' : Frames) (e : error),
    framesLoop o items frames = (fs', Some e) ->
    exists before v after fs,
      items = before ++ v :: after /\
      builtFrames o (map gjson.Raw before) = Some fs /\
      snd (innerFrame o (gjson.Raw v)) = Some e /\
      fs' = frames ++ fs.
Proof.
  induction items as [|v items IH]; intros frames fs' e H.
  - simpl in H. discriminate.
  - rewrite framesLoop_step in H.
    destruct (innerFrame o (gjson.Raw v)) as [fs1 [e1|]] eqn:Hv.
    + inversion H; subst. exists [], v, items, [].
      simpl. rewrite Hv. repeat split. now rewrite app_nil_r.
    + destruct (IH _ _ _ H) as (before & w & after & fs & -> & Hb & Hw & ->).
      exists (v :: before), w, after, (fs1 ++ fs). simpl.
      rewrite Hv, Hb. repeat split; [exact Hw | now rewrite app_assoc].
Qed.

(** X3. In multi-frame mode [ToFrames] swallows no error and skips no
    member. It returns a nil error exactly when every member builds, and
    the collection is then the frames of the members, in their order.
    When it returns an error, some member failed after all the members
    before it built: the error is that of the first member that fails
    and the collection holds the frames of the members before it. *)
Theorem multi_frame_outcome (s : string) (o : FramerOptions) (text : string) :
  reaches s o text ->
  multiFrame text = true ->
  (forall fs,
     ToFrames s o = Returns (fs, None) <->
     builtFrames o (map gjson.Raw (gjson.Array (gjson.Parse text))) = Some fs) /\
  (forall fs e,
     ToFrames s o = Returns (fs, Some e) ->
     exists before v after,
       gjson.Array (gjson.Parse text) = before ++ v :: after /\
       builtFrames o (map gjson.Raw before) = Some fs /\
       snd (innerFrame o (gjson.Raw v)) = Some e).
Proof.
  intros Hr Hm. pose proof (ToFrames_reaches _ _ _ Hr) as Heq.
  unfold multiFrame in Hm. apply andb_true_iff in Hm as [Harr Hnon].
  apply negb_true_iff in Hnon. rewrite Harr, Hnon in Heq. rewrite Heq.
  split.
  - intros fs. split.
    + intros H. inversion H as [Hloop].
      destruct (framesLoop_success _ _ _ _ Hloop) as (fs0 & Hb & ->). exact Hb.
    + intros Hb. now rewrite (framesLoop_built o _ [] fs Hb).
  - intros fs e H. inversion H as [Hloop].
    destruct (framesLoop_failure _ _ _ _ _ Hloop) as (before & v & after & fs0 & Ha & Hb & He & ->).
    exists before, v, after. repeat split; assumption.
Qed.

Lemma innerFrame_at_most_one (o : FramerOptions) (raw : string) :
  length (fst (innerFrame o raw)) <= 1.
Proof.
  unfold innerFrame.
  destruct (getFrameFromResponseString raw o) as [[f|] [e|]]; simpl; try lia.
  destruct (wantsWide o f); simpl; [|lia].
  destruct (data.LongToWide f) as [frame [e|]]; simpl; lia.
Qed.

Lemma framesLoop_length (o : FramerOptions) (items : list gjson.Result) :
  forall (frames fs : Frames) (err : option error),
    framesLoop o items frames = (fs, err) ->
    length fs <= length frames + length items.
Proof.
  induction items as [|v items IH]; intros frames fs err H.
  - simpl in H. inversion H; subst. lia.
  - rewrite framesLoop_step in H.
    pose proof (innerFrame_at_most_one o (gjson.Raw v)) as H1.
    destruct (innerFrame o (gjson.Raw v)) as [fs1 [e1|]]; simpl in H1.
    + inversion H; subst. simpl. lia.
    + apply IH in H. rewrite length_app in H. simpl. lia.
Qed.

(** X4. [ToFrames] never returns more frames than row sets: at most one
    frame per member of an array of arrays, and at most one frame for
    any other text, with or without an error. *)
Theorem at_most_one_frame_per_row_set
  (s : string) (o : FramerOptions) (text : string)
  (fs : Frames) (err : option error) :
  reaches s o text ->
  ToFrames s o = Returns (fs, err) ->
  length fs <=
  if multiFrame text then length (gjson.Array (gjson.Parse text)) else 1.
Proof.
  intros Hr H. rewrite (ToFrames_reaches _ _ _ Hr) in H. unfold multiFrame.
  destruct (gjson.IsArray (gjson.Parse text)); simpl.
  - destruct (nonArrayItemsFound (gjson.Array (gjson.Parse text))); simpl.
    + destruct (getFrameFromResponseString text o) as [frame [e|]];
        inversion H; subst; simpl; lia.
    + inversion H as [Hloop]. apply framesLoop_length in Hloop. simpl in Hloop. lia.
  - inversion H as [Hin].
    pose proof (innerFrame_at_most_one o text) as H1. rewrite Hin in H1. exact H1.
Qed.

Lemma ToFrame_reaches (s : string) (o : FramerOptions) (text : string) :
  reaches s o text ->
  ToFrame s o = Returns (getFrameFromResponseString text o).
Proof.
  intros (Hv & Ht & Hs).
  destruct (rowSource_inv _ _ _ Hs) as (out & Hroot & Hcols).
  unfold ToFrame. rewrite Hv, Ht, Hroot. simpl. now rewrite Hcols.
Qed.

(** X5. Where [ToFrames] builds a single frame without reshaping it, it
    returns what [ToFrame] returns for the same text and options. For
    an array with a member that is not an array: the frame of [ToFrame]
    as the only entry of the collection, or the error of [ToFrame] and
    no frame. For a text that is not an array: the frame of [ToFrame]
    as the only entry, when the format is not [timeseries] or the frame
    is not long. *)
Theorem ToFrames_single_frame_is_the_frame_of_ToFrame
  (s : string) (o : FramerOptions) (text : string) :
  reaches s o text ->
  multiFrame text = false ->
  exists frame err,
    ToFrame s o = Returns (frame, err) /\
    (gjson.IsArray (gjson.Parse text) = true ->
     ToFrames s o =
     Returns (match err with Some _ => [] | None => [frame] end, err)) /\
    (gjson.IsArray (gjson.Parse text) = false ->
     forall f, frame = Some f -> err = None -> wantsWide o f = false ->
     ToFrames s o = Returns ([Some f], None)).
Proof.
  intros Hr Hm.
  rewrite (ToFrame_reaches _ _ _ Hr), (ToFrames_reaches _ _ _ Hr).
  unfold multiFrame in Hm.
  destruct (getFrameFromResponseString text o) as [frame err] eqn:Hf.
  exists frame, err. split; [reflexivity|]. split.
  - intros Harr. rewrite Harr in *. simpl in Hm. apply negb_false_iff in Hm.
    rewrite Hm. destruct err; reflexivity.
  - intros Harr f -> -> Hw. rewrite Harr. unfold innerFrame. now rewrite Hf, Hw.
Qed.

End Collections.

(** ** The declared order of the columns and the projected rows *)

Section KeySortedMaps.
Context {V : Type}.

Lemma string_lt_neq (a b : string) : gomap.lt a b -> String.eqb a b = false.
Proof.
  unfold gomap.lt. intros H. apply String.eqb_neq. intros ->.
  rewrite string_compare_refl in H. discriminate.
Qed.

Lemma gomap_get_below (m : gomap.t V) (k : string) :
  Forall (gomap.lt k) (gomap.keys m) -> gomap.get m k = None.
Proof.
  induction m as [|[k' v'] m IH]; simpl; intros H; [reflexivity|].
  inversion H; subst. rewrite string_lt_neq by assumption. now apply IH.
Qed.

(** Two maps with the same lookups are the same list of entries. *)
Lemma gomap_ext (a : gomap.t V) :
  forall b : gomap.t V,
    StronglySorted gomap.lt (gomap.keys a) ->
    StronglySorted gomap.lt (gomap.keys b) ->
    (forall k, gomap.get a k = gomap.get b k) ->
    a = b.
Proof.
  induction a as [|[k1 v1] a IH]; intros [|[k2 v2] b] Ha Hb Hget.
  - reflexivity.
  - specialize (Hget k2). simpl in Hget. rewrite String.eqb_refl in Hget. discriminate.
  - specialize (Hget k1). simpl in Hget. rewrite String.eqb_refl in Hget. discriminate.
  - simpl in Ha, Hb.
    apply StronglySorted_inv in Ha as [Ha Halla].
    apply StronglySorted_inv in Hb as [Hb Hallb].
    assert (Hk : k1 = k2).
    { destruct (String.eqb k1 k2) eqn:Heq; [now apply String.eqb_eq|].
      pose proof (Hget k1) as H1. pose proof (Hget k2) as H2.
      simpl in H1, H2.
      rewrite String.eqb_refl, Heq in H1.
      rewrite String.eqb_refl, String.eqb_sym, Heq in H2.
      destruct (String.compare k1 k2) eqn:Hc.
      - apply String.compare_eq_iff in Hc. subst.
        rewrite String.eqb_refl in Heq. discriminate.
      - rewrite gomap_get_below in H1; [discriminate|].
        eapply Forall_impl; [|exact Hallb].
        intros x Hx. eapply string_lt_trans; [exact Hc | exact Hx].
      - apply string_gt_lt in Hc. rewrite gomap_get_below in H2; [discriminate|].
        eapply Forall_impl; [|exact Halla].
        intros x Hx. eapply string_lt_trans; [exact Hc | exact Hx]. }
    subst k2.
    pose proof (Hget k1) as H1. simpl in H1. rewrite String.eqb_refl in H1.
    inversion H1; subst v2. f_equal.
    apply IH; try assumption.
    intros k. destruct (String.eqb k k1) eqn:Heq.
    + apply String.eqb_eq in Heq. subst k.
      now rewrite !gomap_get_below by assumption.
    + specialize (Hget k). simpl in Hget. now rewrite Heq in Hget.
Qed.

End KeySortedMaps.

Section DeclaredOrder.
Import jsonframer props.
Context `{GJ : gjson.Lib} `{JS : json.Lib} `{JA : jsonata.Lib}
        `{DA : data.Lib} `{GF : @gframer.Lib DA} `{SQ : SQLite3}.

Lemma store_fold_get_in (raw : string) (columns : list ColumnSelector)
  (c : ColumnSelector) (oi : gomap.t GoValue) :
  NoDup (map columnName columns) ->
  In c columns ->
  gomap.get (fold_left (store raw) columns oi) (columnName c) =
  Some (gjson.Value (gjson.Get raw (Selector c))).
Proof.
  intros Hnd Hin. apply in_split in Hin as (pre & post & ->).
  rewrite map_app in Hnd. simpl in Hnd. apply NoDup_remove_2 in Hnd.
  rewrite fold_left_app. simpl. rewrite store_fold_get_other.
  - unfold store. apply gomap_get_set_same.
  - intros d Hd Heq. apply Hnd. apply in_or_app. right.
    rewrite <- Heq. now apply in_map.
Qed.

Lemma projectRow_permutation (raw : string) (cs cs' : list ColumnSelector) :
  Permutation cs cs' ->
  NoDup (map columnName cs) ->
  projectRow raw cs = projectRow raw cs'.
Proof.
  intros Hp Hnd.
  assert (Hnd' : NoDup (map columnName cs')).
  { eapply Permutation_NoDup; [|exact Hnd]. now apply Permutation_map. }
  rewrite !projectRow_fold.
  apply gomap_ext; try (apply store_fold_sorted; constructor).
  intros k.
  destruct (in_dec string_dec k (map columnName cs)) as [Hin|Hout].
  - apply in_map_iff in Hin as (c & <- & Hc).
    rewrite (store_fold_get_in raw cs c _ Hnd Hc).
    rewrite (store_fold_get_in raw cs' c _ Hnd' (Permutation_in _ Hp Hc)).
    reflexivity.
  - rewrite !store_fold_get_other; [reflexivity | |].
    + intros d Hd Heq. apply Hout. rewrite <- Heq. apply in_map.
      eapply Permutation_in; [apply Permutation_sym; exact Hp | exact Hd].
    + intros d Hd Heq. apply Hout. rewrite <- Heq. now apply in_map.
Qed.

(** X6. The projected text does not depend on the order in which the
    columns are declared: two lists of columns with distinct names
    that are permutations of each other give the same rows, the same
    text and the same error. *)
Theorem projection_ignores_declaration_order
  (text : string) (cs cs' : list ColumnSelector) :
  Permutation cs cs' ->
  NoDup (map columnName cs) ->
  projectRows (gjson.Parse text) cs = projectRows (gjson.Parse text) cs' /\
  getColumnValuesFromResponseString text cs =
  getColumnValuesFromResponseString text cs'.
Proof.
  intros Hp Hnd.
  assert (Hrows : forall result, projectRows result cs = projectRows result cs').
  { intros result. unfold projectRows.
    rewrite (projectRow_permutation (gjson.Raw result) cs cs' Hp Hnd).
    assert (Hmap :
      map (fun kv => projectRow (gjson.Raw (snd kv)) cs) (gjson.ForEach result) =
      map (fun kv => projectRow (gjson.Raw (snd kv)) cs') (gjson.ForEach result)).
    { apply map_ext. intros kv. now apply projectRow_permutation. }
    now rewrite Hmap. }
  split; [apply Hrows|].
  unfold getColumnValuesFromResponseString.
  now rewrite (Permutation_length Hp), Hrows.
Qed.

Lemma store_fold_get_agree (raw : string) (columns : list ColumnSelector) (k : string) :
  In k (map columnName columns) ->
  forall oi oi',
    gomap.get (fold_left (store raw) columns oi) k =
    gomap.get (fold_left (store raw) columns oi') k.
Proof.
  induction columns as [|c columns IH]; intros Hin oi oi'; [contradiction|].
  simpl. destruct (in_dec string_dec k (map columnName columns)) as [Hk|Hk].
  - now apply IH.
  - destruct Hin as [Heq|Hin]; [|contradiction].
    rewrite !store_fold_get_other.
    + unfold store. rewrite <- Heq. now rewrite !gomap_get_set_same.
    + intros d Hd Hd'. apply Hk. rewrite <- Hd'. now apply in_map.
    + intros d Hd Hd'. apply Hk. rewrite <- Hd'. now apply in_map.
Qed.

Lemma projectRow_shadowed (raw : string) (pre : list ColumnSelector)
  (c : ColumnSelector) (rest : list ColumnSelector) :
  In (columnName c) (map columnName rest) ->
  projectRow raw (pre ++ c :: rest) = projectRow raw (pre ++ rest).
Proof.
  intros Hin. rewrite !projectRow_fold.
  apply gomap_ext; try (apply store_fold_sorted; constructor).
  intros k. rewrite !fold_left_app. simpl.
  destruct (in_dec string_dec k (map columnName rest)) as [Hk|Hk].
  - now apply store_fold_get_agree.
  - assert (Hne : forall d, In d rest -> columnName d <> k).
    { intros d Hd Hd'. apply Hk. rewrite <- Hd'. now apply in_map. }
    rewrite (store_fold_get_other raw rest k Hne
               (store raw (fold_left (store raw) pre gomap.empty) c)).
    rewrite (store_fold_get_other raw rest k Hne
               (fold_left (store raw) pre gomap.empty)).
    unfold store. apply gomap_get_set_other.
    intros Heq. apply Hk. now rewrite Heq.
Qed.

(** X7. Two columns of the same name (the alias, or the selector when
    the alias is empty) write the same key of the row, and the later
    one overwrites the earlier: the projected text is the text that the
    columns give with the earlier one left out. No error reports the
    clash. *)
Theorem shadowed_column_leaves_no_trace
  (text : string) (pre : list ColumnSelector) (c : ColumnSelector)
  (mid : list ColumnSelector) (d : ColumnSelector) (post : list ColumnSelector) :
  columnName c = columnName d ->
  getColumnValuesFromResponseString text (pre ++ c :: mid ++ d :: post) =
  getColumnValuesFromResponseString text (pre ++ mid ++ d :: post).
Proof.
  intros Hname.
  assert (Hin : In (columnName c) (map columnName (mid ++ d :: post))).
  { rewrite map_app. apply in_or_app. right. left. now symmetry. }
  assert (Hrows : forall result,
            projectRows result (pre ++ c :: mid ++ d :: post) =
            projectRows result (pre ++ mid ++ d :: post)).
  { intros result. unfold projectRows.
    rewrite (projectRow_shadowed (gjson.Raw result) pre c _ Hin).
    assert (Hmap :
      map (fun kv => projectRow (gjson.Raw (snd kv)) (pre ++ c :: mid ++ d :: post))
          (gjson.ForEach result) =
      map (fun kv => projectRow (gjson.Raw (snd kv)) (pre ++ mid ++ d :: post))
          (gjson.ForEach result)).
    { apply map_ext. intros kv. now apply projectRow_shadowed. }
    now rewrite Hmap. }
  unfold getColumnValuesFromResponseString. rewrite Hrows.
  assert (Hlen : forall (l1 l2 : list ColumnSelector) x,
            Nat.ltb 0 (length (l1 ++ x :: l2)) = true).
  { intros l1 l2 x. apply Nat.ltb_lt. rewrite length_app. simpl. lia. }
  rewrite (Hlen pre (mid ++ d :: post) c).
  rewrite (app_assoc pre mid (d :: post)).
  now rewrite (Hlen (pre ++ mid) post d).
Qed.

End DeclaredOrder.

(** ** Options the framer does not check *)

Section UncheckedOptions.
Import jsonframer props.
Context `{GJ : gjson.Lib} `{JS : json.Lib} `{JA : jsonata.Lib}
        `{DA : data.Lib} `{GF : @gframer.Lib DA} `{SQ : SQLite3}.

Lemma framesLoop_congr (o1 o2 : FramerOptions) :
  (forall raw, getFrameFromResponseString raw o1 = getFrameFromResponseString raw o2) ->
  (forall f, wantsWide o1 f = wantsWide o2 f) ->
  forall items frames, framesLoop o1 items frames = framesLoop o2 items frames.
Proof.
  intros Hf Hw. induction items as [|v items IH]; intros frames; [reflexivity|].
  simpl. rewrite Hf.
  destruct (getFrameFromResponseString (gjson.Raw v) o2) as [[f|] [e|]];
    try reflexivity; [|apply IH].
  rewrite Hw. destruct (wantsWide o2 f); [|apply IH].
  destruct (data.LongToWide f) as [frame [e|]]; [reflexivity | apply IH].
Qed.

Lemma ToFrames_congr (s : string) (o1 o2 : FramerOptions) :
  String.eqb (FramerType_ o1) "sqlite3" = String.eqb (FramerType_ o2) "sqlite3" ->
  RootSelector o1 = RootSelector o2 ->
  Columns o1 = Columns o2 ->
  (forall raw, getFrameFromResponseString raw o1 = getFrameFromResponseString raw o2) ->
  (forall f, wantsWide o1 f = wantsWide o2 f) ->
  ToFrames s o1 = ToFrames s o2.
Proof.
  intros Ht Hs Hc Hf Hw. unfold ToFrames. rewrite Ht, Hs, Hc.
  destruct (validateJson s); [reflexivity|].
  destruct (String.eqb (FramerType_ o2) "sqlite3"); [reflexivity|].
  destruct (GetRootData s (RootSelector o2)) as [[out [e|]]|m]; simpl;
    try reflexivity.
  destruct (getColumnValuesFromResponseString out (Columns o2)) as [text [e|]];
    [reflexivity|].
  cbv zeta. rewrite Hf.
  rewrite (framesLoop_congr o1 o2 Hf Hw).
  destruct (getFrameFromResponseString text o2) as [[f|] [e|]]; try reflexivity.
  now rewrite Hw.
Qed.


(** X9. Options that are read nowhere on a path. [ToFrames] never reads
    the SQLite3 query, and [ToFrame] reads it only under the [sqlite3]
    framer; the frame-building step reads the frame name, the columns
    and the overrides, and none of the framer type, the query, the root
    selector and the frame format. *)
Theorem options_without_effect
  (s : string) (o : FramerOptions) (query sel : string)
  (t : FramerType) (f : FrameFormat) :
  ToFrames s
    {| FramerType_ := FramerType_ o; SQLite3Query := query;
       FrameName := FrameName o; RootSelector := RootSelector o;
       Columns := Columns o; OverrideColumns := OverrideColumns o;
       FrameFormat_ := FrameFormat_ o |} = ToFrames s o /\
  (String.eqb (FramerType_ o) "sqlite3" = false ->
   ToFrame s
     {| FramerType_ := FramerType_ o; SQLite3Query := query;
        FrameName := FrameName o; RootSelector := RootSelector o;
        Columns := Columns o; OverrideColumns := OverrideColumns o;
        FrameFormat_ := FrameFormat_ o |} = ToFrame s o) /\
  (forall text,
     getFrameFromResponseString text
       {| FramerType_ := t; SQLite3Query := query;
          FrameName := FrameName o; RootSelector := sel;
          Columns := Columns o; OverrideColumns := OverrideColumns o;
          FrameFormat_ := f |} = getFrameFromResponseString text o).
Proof.
  split; [|split].
  - now apply ToFrames_congr.
  - intros Ht. unfold ToFrame. simpl. now rewrite Ht.
  - reflexivity.
Qed.

End UncheckedOptions.


(* ================================================================== *)
(** * Concrete texts, with the reference implementations *)
(* ================================================================== *)

Import Reference.

Lemma sqlite3_has_no_multi_frame_support_witness :
  let s := q "[[{'a':1}],[{'a':2}]]" in
  let o := props.withFramerType props.zeroOptions "sqlite3" in
  isEmpty (strings.TrimSpace s) = false /\
  gjson.Valid s = true /\
  jsonframer.FramerType_ o = "sqlite3" /\
  jsonframer.ToFrames s o =
    Returns ([], Some (errors.New "multi frame support not implemented for sqlite3 parser")).
Proof.
  intros s o.
  assert (H1 : isEmpty (strings.TrimSpace s) = false) by run.
  assert (H2 : gjson.Valid s = true) by run.
  assert (H3 : jsonframer.FramerType_ o = "sqlite3") by reflexivity.
  split; [exact H1|]. split; [exact H2|]. split; [exact H3|].
  exact (proj1 (sqlite3_has_no_multi_frame_support s o H1 H2 H3)).
Defined.

(** ** C1 *)

(** The second member holds a number beyond the float64 range, which
    [json.Unmarshal] refuses: the call returns the error and, with it,
    the frame of the first member. *)
Lemma partial_collection_returned_with_error :
  let text := q "[[{'a':1}],[{'a':1e999}]]" in
  props.rowSource text props.zeroOptions = Returns (text, None) /\
  props.multiFrame text = true /\
  jsonframer.ToFrames text props.zeroOptions =
    Returns
      ([Some {| frameName := EmptyString;
                frameFields :=
                  [{| fieldName := "a"; fieldLabels := [];
                      fieldType := FieldNumber;
                      fieldValues := [CNumber (Numeral "1")] |}] |}],
       Some (errors.New
               "error while un-marshaling response. json: cannot unmarshal number 1e999 into Go value of type float64")).
Proof. intros text. repeat split; run. Qed.

Lemma multi_frame_error_returns_earlier_frames_witness :
  let text := q "[[{'a':1}],[{'a':1e999}]]" in
  let o := props.zeroOptions in
  let items := gjson.Array (gjson.Parse text) in
  let before := firstn 1 items in
  let v := nth 1 items gjson.zero in
  let after := skipn 2 items in
  props.reaches text o text /\
  props.multiFrame text = true /\
  items = before ++ v :: after /\
  exists fs e,
    props.builtFrames o (map gjson.Raw before) = Some fs /\
    snd (props.innerFrame o (gjson.Raw v)) = Some e /\
    length fs = 1 /\
    jsonframer.ToFrames text o = Returns (fs, Some e).
Proof.
  intros text o items before v after.
  assert (Hr : props.reaches text o text) by (repeat split; run).
  assert (Hm : props.multiFrame text = true) by run.
  assert (Ha : items = before ++ v :: after) by run.
  match eval vm_compute in (props.builtFrames o (map gjson.Raw before)) with
  | Some ?fs =>
      assert (Hb : props.builtFrames o (map gjson.Raw before) = Some fs) by run;
      match eval vm_compute in (snd (props.innerFrame o (gjson.Raw v))) with
      | Some ?e =>
          assert (He : snd (props.innerFrame o (gjson.Raw v)) = Some e) by run;
          split; [exact Hr|]; split; [exact Hm|]; split; [exact Ha|];
          exists fs, e;
          split; [exact Hb|]; split; [exact He|]; split; [reflexivity|];
          exact (multi_frame_error_returns_earlier_frames
                   text o text before v after fs e Hr Hm Ha Hb He)
      end
  end.
Defined.

(** ** C2 *)

(** The resolved root is an array of two arrays, and a column is
    declared: projection turns the root into an array of two row
    objects, which is classified as one row set. One frame is
    returned, not two. *)
Lemma array_of_arrays_with_columns_is_one_frame :
  let text := q "[[{'a':1}],[{'a':2}]]" in
  let o := props.withColumns props.zeroOptions [props.column "a" EmptyString EmptyString] in
  jsonframer.GetRootData text (jsonframer.RootSelector o) = Returns (text, None) /\
  props.multiFrame text = true /\
  length (gjson.Array (gjson.Parse text)) = 2 /\
  props.rowSource text o = Returns (q "[{'a':null},{'a':null}]", None) /\
  jsonframer.ToFrames text o =
    Returns
      ([Some {| frameName := EmptyString;
                frameFields :=
                  [{| fieldName := "a"; fieldLabels := [];
                      fieldType := FieldUntyped;
                      fieldValues := [CNull; CNull] |}] |}],
       None).
Proof. intros text o. repeat split; run. Qed.

Lemma frames_per_row_set_witness :
  let text := q "[[{'a':1}],[{'a':2}]]" in
  let o := props.zeroOptions in
  props.reaches text o text /\
  props.multiFrame text = true /\
  (forall raw, In raw (map gjson.Raw (gjson.Array (gjson.Parse text))) ->
               exists f, props.innerFrame o raw = ([f], None)) /\
  exists fs,
    jsonframer.ToFrames text o = Returns (fs, None) /\ length fs = 2.
Proof.
  intros text o.
  assert (Hr : props.reaches text o text) by (repeat split; run).
  assert (Hm : props.multiFrame text = true) by run.
  assert (Hall : forall raw,
             In raw (map gjson.Raw (gjson.Array (gjson.Parse text))) ->
             exists f, props.innerFrame o raw = ([f], None)).
  { intros raw Hin. vm_compute in Hin.
    destruct Hin as [<-|[<-|[]]]; eexists; lazy; reflexivity. }
  split; [exact Hr|]. split; [exact Hm|]. split; [exact Hall|].
  destruct (proj1 (proj2 (frames_per_row_set text o text Hr)) Hm Hall)
    as (fs & Heq & Hlen & _).
  exists fs. split; [exact Heq|]. rewrite Hlen. run.
Defined.

(** The examples of the specification, with no column declared. *)
Lemma frame_counts_of_the_examples :
  let rows (f : jsonframer.FramePtr) :=
    match f with Some f => Rows f | None => 0 end in
  (exists f1 f2,
     jsonframer.ToFrames (q "[[{'a':1}],[{'a':2}]]") props.zeroOptions =
       Returns ([f1; f2], None) /\ rows f1 = 1 /\ rows f2 = 1) /\
  (exists f,
     jsonframer.ToFrames (q "[{'a':1},{'a':2}]") props.zeroOptions =
       Returns ([f], None) /\ rows f = 2) /\
  (exists f,
     jsonframer.ToFrames (q "['x','y']") props.zeroOptions = Returns ([f], None)).
Proof.
  intros rows. repeat split.
  - do 2 eexists. repeat split; lazy; reflexivity.
  - eexists. repeat split; lazy; reflexivity.
  - eexists. lazy; reflexivity.
Qed.

(** ** C3 *)



(** ** C4 *)

(** C4, on the code. For the text [{"a":1}] and the selector [(], which
    is no path of the text and no program of the expression language,
    root resolution returns no error value: [jsonata.MustCompile]
    panics, and so do [ToFrames] and [ToFrame]. No error that
    [GetRootData] returns for this text is [ErrInvalidRootSelector]: it
    returns the errors of decoding, evaluation and encoding only. *)
Theorem uncompilable_selector_panics :
  let text := q "{'a':1}" in
  let o := props.withRootSelector props.zeroOptions "(" in
  jsonframer.validateJson text = None /\
  gjson.Exists (gjson.Get text "(") = false /\
  (exists e, jsonata.Compile "(" = inr e) /\
  panicked (jsonframer.GetRootData text "(") = true /\
  panicked (jsonframer.ToFrames text o) = true /\
  panicked (jsonframer.ToFrame text o) = true /\
  (forall sel out err,
     jsonframer.GetRootData text sel = Returns (out, Some err) ->
     exists e',
       err = errors.Join jsonframer.ErrInvalidJSONContent e' \/
       err = errors.Join jsonframer.ErrEvaluatingJSONata e').
Proof.
  intros text o.
  assert (Hv : jsonframer.validateJson text = None) by run.
  assert (Hex : gjson.Exists (gjson.Get text "(") = false) by run.
  assert (Hc : jsonata.Compile "(" =
               inr (errors.New "syntax error: unexpected end of expression")) by run.
  destruct (compile_failure_panics text "(" _ eq_refl Hex Hc) as (Hroot & Hcalls & Herrs).
  destruct (Hcalls o Hv eq_refl eq_refl) as (Hfs & Hf).
  split; [exact Hv|]. split; [exact Hex|]. split; [eexists; exact Hc|].
  split; [now rewrite Hroot|]. split; [now rewrite Hfs|]. split; [now rewrite Hf|].
  exact Herrs.
Qed.

(** ** C5 *)


Lemma allSome_map {A B C : Type} (f : A -> option B) (g : B -> C) (h : A -> C)
  (l : list A) :
  (forall x y, f x = Some y -> g y = h x) ->
  forall r, allSome (map f l) = Some r -> map g r = map h l.
Proof.
  intros Hf. induction l as [|x l IH]; intros r H; simpl in H.
  - inversion H. reflexivity.
  - destruct (f x) as [y|] eqn:Hx; [|discriminate].
    destruct (allSome (map f l)) as [r'|]; [|discriminate].
    inversion H; subst. simpl. now rewrite (Hf x y Hx), (IH r' eq_refl).
Qed.

Lemma buildField_name (rows : list GoValue) (columns : list gframer.ColumnSelector)
  (name : string) (f : Field) :
  buildField rows columns name = Some f -> fieldName f = name.
Proof.
  unfold buildField.
  destruct (specFor name columns) as [spec|].
  - destruct (declaredType (gframer.Type_ spec)).
    + destruct (coerceAll (gframer.Type_ spec) (map (cellAt name) rows));
        [|discriminate].
      intros H; inversion H; reflexivity.
    + intros H; inversion H; reflexivity.
  - intros H; inversion H; reflexivity.
Qed.

Lemma applyOverride_names (fields fields' : list Field) (o : gframer.ColumnSelector) :
  applyOverride fields o = Some fields' ->
  map fieldName fields' = map fieldName fields.
Proof.
  unfold applyOverride. destruct (declaredType (gframer.Type_ o)) as [ft|].
  - apply allSome_map. intros f f'.
    destruct (String.eqb (fieldName f) (gframer.Selector o)).
    + destruct (coerceAll (gframer.Type_ o) (fieldValues f)); [|discriminate].
      intros H; inversion H; reflexivity.
    + intros H; inversion H; reflexivity.
  - intros H; inversion H; reflexivity.
Qed.

Lemma applyOverrides_names (overrides : list gframer.ColumnSelector) :
  forall fields fields',
    applyOverrides fields overrides = Some fields' ->
    map fieldName fields' = map fieldName fields.
Proof.
  induction overrides as [|o overrides IH]; intros fields fields' H; simpl in H.
  - inversion H; reflexivity.
  - destruct (applyOverride fields o) as [fields1|] eqn:H1; [|discriminate].
    rewrite (IH _ _ H). now apply applyOverride_names in H1.
Qed.



(** ** C6 *)


(** The same rows through [ToFrames]: the root is an array of objects,
    and the path of [ToFrames] for such a root (lines 81-88) appends the
    frame as built, long, where the two other paths reshape. *)
Lemma ToFrames_array_of_objects_is_not_reshaped :
  let text := q "[{'t':1,'host':'a','v':10},{'t':1,'host':'b','v':20}]" in
  let o := props.withFrameFormat
             (props.withOverrides props.zeroOptions
                [props.column "t" EmptyString "timestamp_epoch_ms"])
             jsonframer.FrameFormatTimeSeries in
  exists f,
    jsonframer.ToFrames text o = Returns ([Some f], None) /\
    data.TimeSeriesSchemaType f = data.TimeSeriesTypeLong /\
    jsonframer.ToFrames (String.append "[" (String.append text "]")) o
      = Returns ([fst (data.LongToWide f)], None).
Proof.
  intros text o. eexists.
  split; [lazy; reflexivity|]. split; lazy; reflexivity.
Qed.


(** ** C7 *)

(** C7, on the code. An empty selector returns the text unchanged, and a
    path that resolves to an array returns its JSON text. A path that
    resolves to a string returns the characters of the string without
    the quotes, which is not its JSON text and not JSON at all; a path
    that resolves to [null] returns the empty text. [GetRootData]
    returns [r.String()] where the JSON text is [r.Raw]; the fallback
    path next to it returns the text [json.Marshal] writes. The frame
    builder then fails to decode what was returned, where the JSON text
    of the same string builds a frame. *)
Theorem literal_path_returns_string_form :
  let text := q "{'a':'foo','n':null,'k':[1,2]}" in
  (forall s, jsonframer.GetRootData s EmptyString = Returns (s, None)) /\
  jsonframer.GetRootData text "k" = Returns ("[1,2]", None) /\
  gjson.Exists (gjson.Get text "a") = true /\
  gjson.Raw (gjson.Get text "a") = q "'foo'" /\
  jsonframer.GetRootData text "a" = Returns ("foo", None) /\
  gjson.Valid "foo" = false /\
  gjson.Exists (gjson.Get text "n") = true /\
  gjson.Raw (gjson.Get text "n") = "null" /\
  jsonframer.GetRootData text "n" = Returns (EmptyString, None) /\
  (exists e,
     jsonframer.ToFrame text (props.withRootSelector props.zeroOptions "a")
     = Returns (None, Some e)) /\
  (exists f,
     jsonframer.ToFrame (q "'foo'") props.zeroOptions = Returns (Some f, None)).
Proof.
  intros text.
  split; [intros s; apply GetRootData_empty_selector|].
  repeat split; try run.
  - eexists. lazy. reflexivity.
  - eexists. lazy. reflexivity.
Qed.

(** ** C8 *)



(** ** C9 *)

Lemma applyOverrides_none (overrides : list gframer.ColumnSelector) :
  applyOverrides [] overrides = Some [].
Proof.
  induction overrides as [|o overrides IH]; simpl; [reflexivity|].
  unfold applyOverride. destruct (declaredType (gframer.Type_ o)); exact IH.
Qed.

(** The frame of a row set without keys, when no column is declared:
    no column, hence no row. *)
Lemma frame_without_columns (text : string) (o : jsonframer.FramerOptions) :
  jsonframer.Columns o = [] ->
  json.Unmarshal text = (VMap [], None) \/ json.Unmarshal text = (VSlice [], None) ->
  jsonframer.getFrameFromResponseString text o =
  (Some {| frameName := jsonframer.FrameName o; frameFields := [] |}, None).
Proof.
  intros Hc Hu. unfold jsonframer.getFrameFromResponseString.
  destruct Hu as [-> | ->]; rewrite Hc; simpl; unfold ToDataFrame; simpl;
    now rewrite applyOverrides_none.
Qed.

Lemma reaches_plain (text : string) (o : jsonframer.FramerOptions) :
  jsonframer.validateJson text = None ->
  String.eqb (jsonframer.FramerType_ o) "sqlite3" = false ->
  jsonframer.RootSelector o = EmptyString ->
  jsonframer.Columns o = [] ->
  props.reaches text o text.
Proof.
  intros Hv Ht Hs Hc. repeat split; try assumption.
  unfold props.rowSource. rewrite Hs, GetRootData_empty_selector. simpl.
  unfold jsonframer.getColumnValuesFromResponseString. now rewrite Hc.
Qed.




(** ** Instances of the further properties *)

(** The second member of the array does not decode: the error comes
    with the frame of the first member, and the text is an array of
    arrays. *)
Lemma error_with_frames_only_in_multi_frame_mode_witness :
  let s := q "[[{'a':1}],[{'a':1e999}]]" in
  let o := props.zeroOptions in
  exists fs e,
    jsonframer.ToFrames s o = Returns (fs, Some e) /\
    fs <> [] /\
    exists text, props.reaches s o text /\ props.multiFrame text = true.
Proof.
  intros s o.
  match eval vm_compute in (jsonframer.ToFrames s o) with
  | Returns (?fs, Some ?e) =>
      assert (H : jsonframer.ToFrames s o = Returns (fs, Some e)) by run;
      assert (Hne : fs <> []) by discriminate;
      exists fs, e;
      split; [exact H|]; split; [exact Hne|];
      exact (error_with_frames_only_in_multi_frame_mode s o fs e H Hne)
  end.
Defined.

Lemma multi_frame_outcome_witness :
  let text := q "[[{'a':1}],[{'a':2}]]" in
  let o := props.zeroOptions in
  props.reaches text o text /\
  props.multiFrame text = true /\
  (forall fs,
     jsonframer.ToFrames text o = Returns (fs, None) <->
     props.builtFrames o (map gjson.Raw (gjson.Array (gjson.Parse text))) = Some fs) /\
  (forall fs e,
     jsonframer.ToFrames text o = Returns (fs, Some e) ->
     exists before v after,
       gjson.Array (gjson.Parse text) = before ++ v :: after /\
       props.builtFrames o (map gjson.Raw before) = Some fs /\
       snd (props.innerFrame o (gjson.Raw v)) = Some e).
Proof.
  intros text o.
  assert (Hr : props.reaches text o text) by (repeat split; run).
  assert (Hm : props.multiFrame text = true) by run.
  split; [exact Hr|]. split; [exact Hm|].
  exact (multi_frame_outcome text o text Hr Hm).
Defined.

Lemma at_most_one_frame_per_row_set_witness :
  let text := q "[[{'a':1}],[],[{'a':2}]]" in
  let o := props.zeroOptions in
  props.reaches text o text /\
  exists fs err,
    jsonframer.ToFrames text o = Returns (fs, err) /\
    length fs <=
    if props.multiFrame text then length (gjson.Array (gjson.Parse text)) else 1.
Proof.
  intros text o.
  assert (Hr : props.reaches text o text) by (repeat split; run).
  split; [exact Hr|].
  match eval vm_compute in (jsonframer.ToFrames text o) with
  | Returns (?fs, ?err) =>
      assert (H : jsonframer.ToFrames text o = Returns (fs, err)) by run;
      exists fs, err;
      split; [exact H|];
      exact (at_most_one_frame_per_row_set text o text fs err Hr H)
  end.
Defined.

Lemma ToFrames_single_frame_is_the_frame_of_ToFrame_witness :
  let text := q "[{'a':1},{'a':2}]" in
  let o := props.zeroOptions in
  props.reaches text o text /\
  props.multiFrame text = false /\
  exists frame err,
    jsonframer.ToFrame text o = Returns (frame, err) /\
    (gjson.IsArray (gjson.Parse text) = true ->
     jsonframer.ToFrames text o =
     Returns (match err with Some _ => [] | None => [frame] end, err)) /\
    (gjson.IsArray (gjson.Parse text) = false ->
     forall f, frame = Some f -> err = None -> jsonframer.wantsWide o f = false ->
     jsonframer.ToFrames text o = Returns ([Some f], None)).
Proof.
  intros text o.
  assert (Hr : props.reaches text o text) by (repeat split; run).
  assert (Hm : props.multiFrame text = false) by run.
  split; [exact Hr|]. split; [exact Hm|].
  exact (ToFrames_single_frame_is_the_frame_of_ToFrame text o text Hr Hm).
Defined.

Lemma projection_ignores_declaration_order_witness :
  let text := q "[{'a':1,'b':2}]" in
  let cs := [props.column "b" EmptyString EmptyString;
             props.column "a" EmptyString EmptyString] in
  let cs' := [props.column "a" EmptyString EmptyString;
              props.column "b" EmptyString EmptyString] in
  Permutation cs cs' /\
  NoDup (map jsonframer.columnName cs) /\
  jsonframer.projectRows (gjson.Parse text) cs =
  jsonframer.projectRows (gjson.Parse text) cs' /\
  jsonframer.getColumnValuesFromResponseString text cs =
  jsonframer.getColumnValuesFromResponseString text cs'.
Proof.
  intros text cs cs'.
  assert (Hp : Permutation cs cs') by apply perm_swap.
  assert (Hnd : NoDup (map jsonframer.columnName cs)).
  { repeat constructor; simpl; intuition discriminate. }
  split; [exact Hp|]. split; [exact Hnd|].
  exact (projection_ignores_declaration_order text cs cs' Hp Hnd).
Defined.

(** Two columns under the alias [n]: the row keeps the value at [y]. *)
Lemma shadowed_column_leaves_no_trace_witness :
  let text := q "[{'x':1,'y':2}]" in
  let c := props.column "x" "n" EmptyString in
  let d := props.column "y" "n" EmptyString in
  jsonframer.columnName c = jsonframer.columnName d /\
  jsonframer.getColumnValuesFromResponseString text [c; d] =
  jsonframer.getColumnValuesFromResponseString text [d] /\
  jsonframer.getColumnValuesFromResponseString text [c; d] = (q "[{'n':2}]", None).
Proof.
  intros text c d.
  assert (Hn : jsonframer.columnName c = jsonframer.columnName d) by reflexivity.
  split; [exact Hn|]. split; [|run].
  exact (shadowed_column_leaves_no_trace text [] c [] d [] Hn).
Defined.

